(** * CourseMap content store: a shallow embedding of [backend/main.py]

    The development follows the Python module top to bottom: text helpers
    ([slugify]), the version-control ledger ([git_commit_push]), the index
    and metadata stores, the progress calculator, the request handlers and
    the search engine.  Definitions come first, the properties afterwards. *)

From Stdlib Require Import ZArith NArith List String Ascii Bool Lia.
From Stdlib Require Import SpecFloat.
From stdpp Require Import gmap strings list.

Local Open Scope string_scope.
Local Open Scope Z_scope.

(** ** Text

    A Python [str] is modelled as a [string] whose characters are read as the
    code points U+0000 to U+00FF.  The three character tables below are the
    ones CPython uses on that range: [str.isspace] (which is also what
    [str.strip()] removes and what the pattern [\s] matches), the pattern
    [\w] (alphanumeric or underscore) and [str.lower]. *)

Module Text.

Definition code (c : ascii) : N := N_of_ascii c.

Definition in_range (lo hi : N) (c : ascii) : bool :=
  ((lo <=? code c) && (code c <=? hi))%N.

(** [c.isspace()], equally [\s]. *)
Definition isspace (c : ascii) : bool :=
  in_range 9 13 c || in_range 28 32 c || in_range 133 133 c
  || in_range 160 160 c.

(** The pattern [\w]. *)
Definition is_word (c : ascii) : bool :=
  in_range 48 57 c || in_range 65 90 c || in_range 95 95 c
  || in_range 97 122 c || in_range 170 170 c || in_range 178 179 c
  || in_range 181 181 c || in_range 185 186 c || in_range 188 190 c
  || in_range 192 214 c || in_range 216 246 c || in_range 248 255 c.

Definition is_hyphen (c : ascii) : bool := in_range 45 45 c.

(** [c.lower()] for one character. *)
Definition lower_char (c : ascii) : ascii :=
  if in_range 65 90 c || in_range 192 214 c || in_range 216 222 c
  then ascii_of_N (code c + 32)
  else c.

(** [text.lower()] *)
Fixpoint lower (text : string) : string :=
  match text with
  | EmptyString => EmptyString
  | String c rest => String (lower_char c) (lower rest)
  end.

(** [text.lstrip()] *)
Fixpoint lstrip (text : string) : string :=
  match text with
  | EmptyString => EmptyString
  | String c rest => if isspace c then lstrip rest else text
  end.

(** [text.rstrip()] *)
Fixpoint rstrip (text : string) : string :=
  match text with
  | EmptyString => EmptyString
  | String c rest =>
      match rstrip rest with
      | EmptyString => if isspace c then EmptyString else String c EmptyString
      | kept => String c kept
      end
  end.

(** [text.strip()] *)
Definition strip (text : string) : string := rstrip (lstrip text).

(** The character class [[^\w\s-]] of the first substitution, negated: the
    characters that [re.sub(r'[^\w\s-]', '', text)] keeps. *)
Definition kept_char (c : ascii) : bool :=
  is_word c || isspace c || is_hyphen c.

(** [re.sub(r'[^\w\s-]', '', text)] *)
Fixpoint remove_unsafe (text : string) : string :=
  match text with
  | EmptyString => EmptyString
  | String c rest =>
      if kept_char c then String c (remove_unsafe rest) else remove_unsafe rest
  end.

(** The character class [[-\s]] of the second substitution. *)
Definition is_sep (c : ascii) : bool := is_hyphen c || isspace c.

(** [re.sub(r'[-\s]+', '-', text)]: every maximal run of separators is
    replaced by one hyphen.  [in_run] records that the previous character
    belonged to the run being replaced. *)
Fixpoint collapse_from (in_run : bool) (text : string) : string :=
  match text with
  | EmptyString => EmptyString
  | String c rest =>
      if is_sep c
      then if in_run then collapse_from true rest
           else String "-" (collapse_from true rest)
      else String c (collapse_from false rest)
  end.

Definition collapse_seps (text : string) : string := collapse_from false text.

(** [slugify(text)] *)
Definition slugify (text : string) : string :=
  let text := strip (lower text) in
  let text := remove_unsafe text in
  let text := collapse_seps text in
  text.

(** [needle in haystack] on [str]. *)
Fixpoint contains (needle haystack : string) : bool :=
  String.prefix needle haystack
  || match haystack with
     | EmptyString => false
     | String _ rest => contains needle rest
     end.



(** A character that [lower] leaves alone, and a text all of whose
    characters satisfy a test. *)
Definition settled (c : ascii) : bool := Ascii.eqb (lower_char c) c.

Fixpoint all_chars (P : ascii -> bool) (text : string) : bool :=
  match text with
  | EmptyString => true
  | String c rest => P c && all_chars P rest
  end.

(** The shape of a finished slug: lower-case word characters and single
    hyphens; [after_hyphen] says the previous character was a hyphen. *)
Fixpoint canon (after_hyphen : bool) (text : string) : bool :=
  match text with
  | EmptyString => true
  | String c rest =>
      if is_hyphen c then negb after_hyphen && canon true rest
      else is_word c && settled c && canon false rest
  end.

End Text.

(** ** Faults *)

Inductive exn :=
  | HTTPException (status_code : Z) (detail : string)
  | CalledProcessError
  | FileNotFoundError
  | AttributeError
  | TypeError
  | OverflowError
  | ValueError.

Inductive outcome (A : Type) :=
  | Returned (a : A)
  | Raised (e : exn).
Arguments Returned {A} a.
Arguments Raised {A} e.

(** ** Double-precision arithmetic

    Python's [float] is IEEE 754 binary64; the operations are the ones the
    standard library specifies in [SpecFloat] at precision 53. *)

Module Float64.

Definition prec : Z := 53.
Definition emax : Z := 1024.

(** [float(n)] for an [int]; exact below [2^53]. *)
Definition of_int (n : Z) : spec_float := binary_normalize prec emax n 0 false.

(** [a / b] on two [int]s with [b <> 0]: the quotient rounded to nearest. *)
Definition truediv (a b : Z) : spec_float :=
  SFdiv prec emax (of_int a) (of_int b).

(** [x * y] on [float]s. *)
Definition mul (x y : spec_float) : spec_float := SFmul prec emax x y.

(** [int(x)]: truncation toward zero; an infinity and a NaN raise. *)
Definition to_int (x : spec_float) : outcome Z :=
  match x with
  | S754_zero _ => Returned 0
  | S754_finite s m e =>
      let magnitude := Z.shiftl (Zpos m) e in
      Returned (if s then - magnitude else magnitude)
  | S754_infinity _ => Raised OverflowError
  | S754_nan => Raised ValueError
  end.

End Float64.

(** ** Data model

    The JSON objects of [index.json] and [course.json], with the keys the
    handlers write. *)

Record TopicMeta := {
  t_id : Z;
  t_title : string;
  t_slug : string;
  t_file : string;
  t_completed : bool;
  t_priority : string;
  t_time : Z;
  t_locked : bool
}.

Record ModuleMeta := {
  m_id : Z;
  m_title : string;
  m_slug : string;
  m_completed : bool;
  m_topics : list TopicMeta
}.

Record CourseMeta := {
  c_id : Z;
  c_code : string;
  c_name : string;
  c_slug : string;
  c_progress : Z;
  c_modules : list ModuleMeta
}.

Record CourseRef := { r_id : Z; r_slug : string }.

(** Request bodies (the pydantic models). *)
Record CourseCreate := { cc_code : string; cc_name : string }.
Record ModuleCreate := { mc_title : string }.
Record TopicCreate := { tc_title : string; tc_priority : string; tc_time : Z }.
Record TopicUpdate := { tu_content : option string; tu_completed : option bool }.

(** Building a [TopicCreate] from a request body: absent fields take the
    class defaults [priority = "medium"] and [time = 15]. *)
Definition TopicCreate_of_body
    (title : string) (priority : option string) (time : option Z) : TopicCreate :=
  {| tc_title := title;
     tc_priority := default "medium" priority;
     tc_time := default 15 time |}.

(** Entries of the list [search] returns. *)
Inductive SearchResult :=
  | CourseHit (course_id : Z) (title : string)
  | ModuleHit (course_id module_id : Z) (title : string)
  | TopicHit (course_id module_id topic_id : Z) (title : string).

(** ** The content root

    The files under [REPO_PATH], by kind: the index, the directories, the
    [course.json] records and the topic bodies, each keyed by the path string
    the code builds.  A path names one kind of object, and a file is read
    back as the kind it was written as; [index.json] is present ([init_repo]
    creates it on import). *)

Record Store := {
  index_json : list CourseRef;
  directories : gset string;
  course_json : gmap string CourseMeta;
  topic_md : gmap string string
}.

Definition REPO_PATH : string := "./coursemap-content".
Definition COURSES_DIR : string := REPO_PATH ++ "/courses".

Definition course_dir_of (course_slug : string) : string :=
  COURSES_DIR ++ "/" ++ course_slug.
Definition meta_file_of (course_slug : string) : string :=
  course_dir_of course_slug ++ "/course.json".
Definition module_dir_of (course_slug module_slug : string) : string :=
  COURSES_DIR ++ "/" ++ course_slug ++ "/" ++ module_slug.
(** [f"{COURSES_DIR}/{course_ref['slug']}/{topic['file']}"] *)
Definition topic_path (course_slug file : string) : string :=
  COURSES_DIR ++ "/" ++ course_slug ++ "/" ++ file.

(** [os.path.exists(path)] *)
Definition os_path_exists (st : Store) (path : string) : bool :=
  bool_decide (path ∈ directories st)
  || bool_decide (is_Some (course_json st !! path))
  || bool_decide (is_Some (topic_md st !! path)).

(** The directories [os.makedirs(path, exist_ok=True)] leaves in place: every
    prefix of [path] that is followed by a slash, and [path] itself. *)
Fixpoint dir_prefixes (path : string) : list string :=
  match path with
  | EmptyString => [EmptyString]
  | String c rest =>
      ((if Ascii.eqb c "/" then [EmptyString] else [])
       ++ map (String c) (dir_prefixes rest))%list
  end.

(** [os.path.dirname(path)] as used by [open]: the text before the last slash. *)
Fixpoint dirname (path : string) : string :=
  match path with
  | EmptyString => EmptyString
  | String c rest =>
      if Text.contains "/" rest then String c (dirname rest) else EmptyString
  end.

(** ** The version-control tool and the handler monad *)

(** What [subprocess.run] can do with a command: run it to completion, or
    fail to start it (the executable or the working directory is missing). *)
Record CompletedProcess := { returncode : Z; stdout : string }.
Inductive spawn := Spawned (p : CompletedProcess) | NoSuchFile.

(** The version-control tool seen from one request: what the [n]-th
    [subprocess.run] of the request does with its arguments. *)
Definition GitTool : Type := nat -> list string -> spawn.

(** A request runs against the content root and leaves a trace of the
    commands it ran. *)
Record World := { store : Store; git_log : list (list string) }.

(** Effects persist when a fault is raised: nothing is rolled back. *)
Definition M (A : Type) : Type := World -> World * outcome A.

Definition ret {A} (a : A) : M A := fun w => (w, Returned a).
Definition raise {A} (e : exn) : M A := fun w => (w, Raised e).
Definition bind {A B} (m : M A) (k : A -> M B) : M B :=
  fun w =>
    match m w with
    | (w', Returned a) => k a w'
    | (w', Raised e) => (w', Raised e)
    end.
Definition try_except {A} (body : M A) (handler : exn -> M A) : M A :=
  fun w =>
    match body w with
    | (w', Returned a) => (w', Returned a)
    | (w', Raised e) => handler e w'
    end.
Definition read {A} (f : Store -> A) : M A := fun w => (w, Returned (f (store w))).
Definition write (f : Store -> Store) : M unit :=
  fun w => ({| store := f (store w); git_log := git_log w |}, Returned tt).

Notation "'let*' x ':=' m 'in' k" := (bind m (fun x => k))
  (at level 10, x name, m at level 100, k at level 200).

Fixpoint foldM {A S : Type} (f : S -> A -> M S) (l : list A) (s : S) : M S :=
  match l with
  | [] => ret s
  | x :: rest => let* s' := f s x in foldM f rest s'
  end.

(** [os.makedirs(path, exist_ok=True)] *)
Definition makedirs (path : string) : M unit :=
  write (fun st =>
    {| index_json := index_json st;
       directories := directories st ∪ list_to_set (dir_prefixes path);
       course_json := course_json st;
       topic_md := topic_md st |}).

(** [with open(path, 'w') as f: f.write(text)] on a topic body: the file is
    created or truncated; the directory it lies in must exist. *)
Definition write_text (path text : string) : M unit :=
  let* parent_exists := read (fun st => bool_decide (dirname path ∈ directories st)) in
  if parent_exists
  then write (fun st =>
         {| index_json := index_json st;
            directories := directories st;
            course_json := course_json st;
            topic_md := <[path := text]> (topic_md st) |})
  else raise FileNotFoundError.

(** The closing lines of [get_topic] and [update_topic]: the body of the
    file, or the empty string when there is no such file. *)
Definition read_text_or_empty (path : string) : M string :=
  read (fun st => default "" (topic_md st !! path)).

(** [next((x for x in l if p(x)), None)] is [find p l]; an update through the
    reference it returns changes that first match inside the list. *)
Fixpoint update_first {A : Type} (p : A -> bool) (f : A -> A) (l : list A) : list A :=
  match l with
  | [] => []
  | x :: rest => if p x then f x :: rest else x :: update_first p f rest
  end.

Definition with_progress (progress : Z) (meta : CourseMeta) : CourseMeta :=
  {| c_id := c_id meta; c_code := c_code meta; c_name := c_name meta;
     c_slug := c_slug meta; c_progress := progress; c_modules := c_modules meta |}.

Definition with_modules (modules : list ModuleMeta) (meta : CourseMeta) : CourseMeta :=
  {| c_id := c_id meta; c_code := c_code meta; c_name := c_name meta;
     c_slug := c_slug meta; c_progress := c_progress meta; c_modules := modules |}.

Definition with_topics (topics : list TopicMeta) (module : ModuleMeta) : ModuleMeta :=
  {| m_id := m_id module; m_title := m_title module; m_slug := m_slug module;
     m_completed := m_completed module; m_topics := topics |}.

Definition with_completed (completed : bool) (topic : TopicMeta) : TopicMeta :=
  {| t_id := t_id topic; t_title := t_title topic; t_slug := t_slug topic;
     t_file := t_file topic; t_completed := completed;
     t_priority := t_priority topic; t_time := t_time topic;
     t_locked := t_locked topic |}.

(** The template [create_topic] seeds a topic body with. *)
Definition template (title : string) : string :=
  "# " ++ title ++ "

## Overview
Write your content here...

## Key Concepts

## Examples

## Practice Problems
".

(** *** Index and metadata stores *)

Definition load_index : M (list CourseRef) := read index_json.

Definition save_index (data : list CourseRef) : M unit :=
  write (fun st =>
    {| index_json := data;
       directories := directories st;
       course_json := course_json st;
       topic_md := topic_md st |}).

(** [None] when [course.json] does not exist. *)
Definition get_course_meta (course_slug : string) : M (option CourseMeta) :=
  read (fun st => course_json st !! meta_file_of course_slug).

Definition save_course_meta (course_slug : string) (data : CourseMeta) : M unit :=
  let course_dir := course_dir_of course_slug in
  let* _ := makedirs course_dir in
  write (fun st =>
    {| index_json := index_json st;
       directories := directories st;
       course_json := <[meta_file_of course_slug := data]> (course_json st);
       topic_md := topic_md st |}).

(** *** Progress *)

(** One pass of the inner loop body: [total += 1] and, for a completed
    topic, [completed += 1]. *)
Definition count_topic (acc : Z * Z) (topic : TopicMeta) : Z * Z :=
  let '(total, completed) := acc in
  (total + 1, if t_completed topic then completed + 1 else completed).

Definition count_module (acc : Z * Z) (module : ModuleMeta) : Z * Z :=
  fold_left count_topic (m_topics module) acc.

(** [(total, completed)] after both loops. *)
Definition count_course (meta : CourseMeta) : Z * Z :=
  fold_left count_module (c_modules meta) (0, 0).

(** [int((completed / total * 100) if total > 0 else 0)] *)
Definition percent (completed total : Z) : outcome Z :=
  if total >? 0
  then Float64.to_int
         (Float64.mul (Float64.truediv completed total) (Float64.of_int 100))
  else Returned 0.

Definition calculate_progress (course_slug : string) : M Z :=
  let* meta := get_course_meta course_slug in
  match meta with
  | None => ret 0
  | Some meta =>
      let '(total, completed) := count_course meta in
      fun w => (w, percent completed total)
  end.

(** *** Search *)

Definition search_topic (st : Store) (q_lower : string) (course_ref : CourseRef)
    (meta : CourseMeta) (module : ModuleMeta)
    (results : list SearchResult) (topic : TopicMeta) : list SearchResult :=
  if Text.contains q_lower (Text.lower (t_title topic))
  then
    let topic_file := topic_path (r_slug course_ref) (t_file topic) in
    match topic_md st !! topic_file with
    | Some content =>
        if Text.contains q_lower (Text.lower content)
        then (results ++ [TopicHit (c_id meta) (m_id module) (t_id topic)
                           (c_code meta ++ " > " ++ m_title module ++ " > "
                            ++ t_title topic)])%list
        else results
    | None => results
    end
  else results.

Definition search_module (st : Store) (q_lower : string) (course_ref : CourseRef)
    (meta : CourseMeta)
    (results : list SearchResult) (module : ModuleMeta) : list SearchResult :=
  let results :=
    if Text.contains q_lower (Text.lower (m_title module))
    then (results ++ [ModuleHit (c_id meta) (m_id module)
                       (c_code meta ++ " > " ++ m_title module)])%list
    else results in
  fold_left (search_topic st q_lower course_ref meta module)
            (m_topics module) results.

Definition search_course (st : Store) (q_lower : string)
    (results : list SearchResult) (course_ref : CourseRef) : list SearchResult :=
  match course_json st !! meta_file_of (r_slug course_ref) with
  | None => results
  | Some meta =>
      let results :=
        if Text.contains q_lower (Text.lower (c_code meta))
           || Text.contains q_lower (Text.lower (c_name meta))
        then (results ++ [CourseHit (c_id meta) (c_code meta ++ " - " ++ c_name meta)])%list
        else results in
      fold_left (search_module st q_lower course_ref meta)
                (c_modules meta) results
  end.

(** The list [results] when the loops of [search] are done. *)
Definition search_results (st : Store) (q : string) : list SearchResult :=
  let q_lower := Text.lower q in
  fold_left (search_course st q_lower) (index_json st) [].

(** [search(q)]; the slice [results[:20]] is [firstn 20]. *)
Definition search (q : string) : M (list SearchResult) :=
  read (fun st => firstn 20 (search_results st q)).

(** *** The ledger and the request handlers *)

Section Handlers.

Variable git : GitTool.

(** [subprocess.run(args, cwd=REPO_PATH, check=check)]: a command that
    cannot be started raises [FileNotFoundError]; with [check], a non-zero
    exit status raises [CalledProcessError]. *)
Definition subprocess_run (args : list string) (check : bool) : M CompletedProcess :=
  fun w =>
    let w' := {| store := store w; git_log := (git_log w ++ [args])%list |} in
    match git (length (git_log w)) args with
    | NoSuchFile => (w', Raised FileNotFoundError)
    | Spawned p =>
        if check && negb (returncode p =? 0)
        then (w', Raised CalledProcessError)
        else (w', Returned p)
    end.

(** [git_commit_push(message)]; the handler's [print] is not modelled. *)
Definition git_commit_push (message : string) : M bool :=
  try_except
    (let* _ := subprocess_run ["git"; "add"; "."] true in
     let* _ := subprocess_run ["git"; "commit"; "-m"; message] true in
     let* result := subprocess_run ["git"; "remote"] false in
     let* _ :=
       match Text.strip (stdout result) with
       | EmptyString => ret tt
       | _ => let* _ := subprocess_run ["git"; "push"] true in ret tt
       end in
     ret true)
    (fun e =>
       match e with
       | CalledProcessError => ret false
       | _ => raise e
       end).

(** One pass of the loop of [get_courses]. *)
Definition list_course (courses : list CourseMeta) (course_ref : CourseRef)
    : M (list CourseMeta) :=
  let course_slug := r_slug course_ref in
  let* meta := get_course_meta course_slug in
  match meta with
  | Some meta =>
      let* progress := calculate_progress course_slug in
      ret (courses ++ [with_progress progress meta])%list
  | None => ret courses
  end.

(** [GET /courses] *)
Definition get_courses : M (list CourseMeta) :=
  let* index := load_index in
  foldM list_course index [].

(** [POST /courses] *)
Definition create_course (course : CourseCreate) : M CourseMeta :=
  let course_slug := Text.slugify (cc_code course ++ "-" ++ cc_name course) in
  let course_dir := course_dir_of course_slug in
  let* already := read (fun st => os_path_exists st course_dir) in
  if already
  then raise (HTTPException 400 "Course already exists")
  else
    let* _ := makedirs course_dir in
    let* index := load_index in
    let course_id := Z.of_nat (length index) + 1 in
    let meta :=
      {| c_id := course_id; c_code := cc_code course; c_name := cc_name course;
         c_slug := course_slug; c_progress := 0; c_modules := [] |} in
    let* _ := save_course_meta course_slug meta in
    let* index := load_index in
    let* _ := save_index (index ++ [{| r_id := course_id; r_slug := course_slug |}])%list in
    let* _ := git_commit_push
                ("Create course: " ++ cc_code course ++ " - " ++ cc_name course) in
    ret meta.

(** [next((c for c in index["courses"] if c["id"] == course_id), None)] *)
Definition find_course (course_id : Z) (index : list CourseRef) : option CourseRef :=
  find (fun c => r_id c =? course_id) index.

Definition find_module (module_id : Z) (modules : list ModuleMeta) : option ModuleMeta :=
  find (fun m => m_id m =? module_id) modules.

Definition find_topic (topic_id : Z) (topics : list TopicMeta) : option TopicMeta :=
  find (fun t => t_id t =? topic_id) topics.

(** [GET /courses/{course_id}] *)
Definition get_course (course_id : Z) : M CourseMeta :=
  let* index := load_index in
  match find_course course_id index with
  | None => raise (HTTPException 404 "Course not found")
  | Some course_ref =>
      let* meta := get_course_meta (r_slug course_ref) in
      match meta with
      | None => raise (HTTPException 404 "Course metadata not found")
      | Some meta =>
          let* progress := calculate_progress (r_slug course_ref) in
          ret (with_progress progress meta)
      end
  end.

(** [POST /courses/{course_id}/modules].  With no [course.json], [meta] is
    [None] and [meta.get] raises [AttributeError]. *)
Definition create_module (course_id : Z) (module : ModuleCreate) : M ModuleMeta :=
  let* index := load_index in
  match find_course course_id index with
  | None => raise (HTTPException 404 "Course not found")
  | Some course_ref =>
      let* meta := get_course_meta (r_slug course_ref) in
      let module_slug := Text.slugify (mc_title module) in
      let module_dir := module_dir_of (r_slug course_ref) module_slug in
      let* _ := makedirs module_dir in
      match meta with
      | None => raise AttributeError
      | Some meta =>
          let module_id := Z.of_nat (length (c_modules meta)) + 1 in
          let new_module :=
            {| m_id := module_id; m_title := mc_title module;
               m_slug := module_slug; m_completed := false; m_topics := [] |} in
          let meta := with_modules (c_modules meta ++ [new_module])%list meta in
          let* _ := save_course_meta (r_slug course_ref) meta in
          let* _ := git_commit_push ("Add module: " ++ mc_title module) in
          ret new_module
      end
  end.

(** [POST /courses/{course_id}/modules/{module_id}/topics].  With no
    [course.json], [meta["modules"]] raises [TypeError]. *)
Definition create_topic (course_id module_id : Z) (topic : TopicCreate) : M TopicMeta :=
  let* index := load_index in
  match find_course course_id index with
  | None => raise (HTTPException 404 "Course not found")
  | Some course_ref =>
      let* meta := get_course_meta (r_slug course_ref) in
      match meta with
      | None => raise TypeError
      | Some meta =>
          match find_module module_id (c_modules meta) with
          | None => raise (HTTPException 404 "Module not found")
          | Some module =>
              let topic_slug := Text.slugify (tc_title topic) in
              let topic_file :=
                COURSES_DIR ++ "/" ++ r_slug course_ref ++ "/" ++ m_slug module
                ++ "/" ++ topic_slug ++ ".md" in
              let* _ := write_text topic_file (template (tc_title topic)) in
              let topic_id := Z.of_nat (length (m_topics module)) + 1 in
              let new_topic :=
                {| t_id := topic_id; t_title := tc_title topic;
                   t_slug := topic_slug;
                   t_file := m_slug module ++ "/" ++ topic_slug ++ ".md";
                   t_completed := false; t_priority := tc_priority topic;
                   t_time := tc_time topic; t_locked := false |} in
              let meta :=
                with_modules
                  (update_first (fun m => m_id m =? module_id)
                     (fun m => with_topics (m_topics m ++ [new_topic])%list m)
                     (c_modules meta))
                  meta in
              let* _ := save_course_meta (r_slug course_ref) meta in
              let* _ := git_commit_push ("Add topic: " ++ tc_title topic) in
              ret new_topic
          end
      end
  end.

(** [GET /courses/{course_id}/modules/{module_id}/topics/{topic_id}]; the
    result [{**topic, "content": content}] is the pair. *)
Definition get_topic (course_id module_id topic_id : Z) : M (TopicMeta * string) :=
  let* index := load_index in
  match find_course course_id index with
  | None => raise (HTTPException 404 "Course not found")
  | Some course_ref =>
      let* meta := get_course_meta (r_slug course_ref) in
      match meta with
      | None => raise TypeError
      | Some meta =>
          match find_module module_id (c_modules meta) with
          | None => raise (HTTPException 404 "Module not found")
          | Some module =>
              match find_topic topic_id (m_topics module) with
              | None => raise (HTTPException 404 "Topic not found")
              | Some topic =>
                  let topic_file := topic_path (r_slug course_ref) (t_file topic) in
                  let* content := read_text_or_empty topic_file in
                  ret (topic, content)
              end
          end
      end
  end.

(** [PATCH /courses/{course_id}/modules/{module_id}/topics/{topic_id}] *)
Definition update_topic (course_id module_id topic_id : Z) (updates : TopicUpdate)
    : M (TopicMeta * string) :=
  let* index := load_index in
  match find_course course_id index with
  | None => raise (HTTPException 404 "Course not found")
  | Some course_ref =>
      let* meta := get_course_meta (r_slug course_ref) in
      match meta with
      | None => raise TypeError
      | Some meta =>
          match find_module module_id (c_modules meta) with
          | None => raise (HTTPException 404 "Module not found")
          | Some module =>
              match find_topic topic_id (m_topics module) with
              | None => raise (HTTPException 404 "Topic not found")
              | Some topic =>
                  let topic_file := topic_path (r_slug course_ref) (t_file topic) in
                  let* _ :=
                    match tu_content updates with
                    | Some content =>
                        let* _ := write_text topic_file content in
                        let* _ := git_commit_push ("Update topic: " ++ t_title topic) in
                        ret tt
                    | None => ret tt
                    end in
                  let* topic :=
                    match tu_completed updates with
                    | Some completed =>
                        let meta :=
                          with_modules
                            (update_first (fun m => m_id m =? module_id)
                               (fun m =>
                                  with_topics
                                    (update_first (fun t => t_id t =? topic_id)
                                       (with_completed completed) (m_topics m))
                                    m)
                               (c_modules meta))
                            meta in
                        let* _ := save_course_meta (r_slug course_ref) meta in
                        let* _ := git_commit_push
                                    ("Mark "
                                     ++ (if completed then "complete" else "incomplete")
                                     ++ ": " ++ t_title topic) in
                        ret (with_completed completed topic)
                    | None => ret topic
                    end in
                  let* content := read_text_or_empty topic_file in
                  ret (topic, content)
              end
          end
      end
  end.

End Handlers.

(** ** The search contract, as the specification words it

    A second description of the result list, by comprehension instead of by
    accumulation: each course in index order contributes its own hit, then
    for each of its modules in stored order the module's hit and the hits of
    the module's topics in stored order. *)

(** Case-insensitive substring test. *)
Definition matches (q text : string) : bool :=
  Text.contains (Text.lower q) (Text.lower text).

(** A topic matches when the query occurs in its title and in the body of
    its content file; a missing file is no match. *)
Definition topic_matches (st : Store) (q : string) (course_ref : CourseRef)
    (topic : TopicMeta) : bool :=
  matches q (t_title topic)
  && match topic_md st !! topic_path (r_slug course_ref) (t_file topic) with
     | Some body => matches q body
     | None => false
     end.

Definition topic_hit (meta : CourseMeta) (module : ModuleMeta) (topic : TopicMeta)
    : SearchResult :=
  TopicHit (c_id meta) (m_id module) (t_id topic)
    (c_code meta ++ " > " ++ m_title module ++ " > " ++ t_title topic).

Definition module_hits (st : Store) (q : string) (course_ref : CourseRef)
    (meta : CourseMeta) (module : ModuleMeta) : list SearchResult :=
  ((if matches q (m_title module)
    then [ModuleHit (c_id meta) (m_id module) (c_code meta ++ " > " ++ m_title module)]
    else [])
   ++ map (topic_hit meta module)
        (List.filter (topic_matches st q course_ref) (m_topics module)))%list.

Definition course_hits (st : Store) (q : string) (course_ref : CourseRef)
    : list SearchResult :=
  match course_json st !! meta_file_of (r_slug course_ref) with
  | None => []
  | Some meta =>
      ((if matches q (c_code meta) || matches q (c_name meta)
        then [CourseHit (c_id meta) (c_code meta ++ " - " ++ c_name meta)]
        else [])
       ++ flat_map (module_hits st q course_ref meta) (c_modules meta))%list
  end.

Definition all_hits (st : Store) (q : string) : list SearchResult :=
  flat_map (course_hits st q) (index_json st).

(** Every stored topic with the course and module it is reached through, in
    traversal order. *)
Definition stored_topics (st : Store)
    : list (CourseRef * CourseMeta * ModuleMeta * TopicMeta) :=
  flat_map
    (fun course_ref =>
       match course_json st !! meta_file_of (r_slug course_ref) with
       | None => []
       | Some meta =>
           flat_map
             (fun module => map (fun topic => (course_ref, meta, module, topic))
                              (m_topics module))
             (c_modules meta)
       end)
    (index_json st).

Definition is_topic_hit (r : SearchResult) : bool :=
  match r with
  | TopicHit _ _ _ _ => true
  | _ => false
  end.

(** ** Vocabulary of the properties *)

(** A computation that leaves the content root as it found it, whatever
    it returns or raises. *)
Definition keeps_store {A} (m : M A) : Prop :=
  forall w, store (m w).1 = store w.

(** A computation that leaves one component of the content root as it
    found it, whatever it returns or raises. *)
Definition preserves {X A} (part : Store -> X) (m : M A) : Prop :=
  forall w, part (store (m w).1) = part (store w).

(** The entity a successful creation returns, and the content root
    [create_course] leaves. *)
Definition new_course (course : CourseCreate) (st : Store) : CourseMeta :=
  {| c_id := Z.of_nat (length (index_json st)) + 1;
     c_code := cc_code course; c_name := cc_name course;
     c_slug := Text.slugify (cc_code course ++ "-" ++ cc_name course);
     c_progress := 0; c_modules := [] |}.

Definition store_with_course (course : CourseCreate) (st : Store) : Store :=
  let meta := new_course course st in
  {| index_json := (index_json st ++ [{| r_id := c_id meta; r_slug := c_slug meta |}])%list;
     directories := directories st
                    ∪ list_to_set (dir_prefixes (course_dir_of (c_slug meta)))
                    ∪ list_to_set (dir_prefixes (course_dir_of (c_slug meta)));
     course_json := <[meta_file_of (c_slug meta) := meta]> (course_json st);
     topic_md := topic_md st |}.

Definition new_module (module : ModuleCreate) (meta : CourseMeta) : ModuleMeta :=
  {| m_id := Z.of_nat (length (c_modules meta)) + 1;
     m_title := mc_title module;
     m_slug := Text.slugify (mc_title module);
     m_completed := false; m_topics := [] |}.

Definition new_topic (topic : TopicCreate) (module : ModuleMeta) : TopicMeta :=
  {| t_id := Z.of_nat (length (m_topics module)) + 1;
     t_title := tc_title topic;
     t_slug := Text.slugify (tc_title topic);
     t_file := m_slug module ++ "/" ++ Text.slugify (tc_title topic) ++ ".md";
     t_completed := false; t_priority := tc_priority topic;
     t_time := tc_time topic; t_locked := false |}.

(** The loop of [get_courses] as a function of the records. *)
Fixpoint courses_loop (records : gmap string CourseMeta) (refs : list CourseRef)
    (courses : list CourseMeta) : outcome (list CourseMeta) :=
  match refs with
  | [] => Returned courses
  | course_ref :: rest =>
      match records !! meta_file_of (r_slug course_ref) with
      | Some meta =>
          match percent (count_course meta).2 (count_course meta).1 with
          | Returned progress =>
              courses_loop records rest (courses ++ [with_progress progress meta])%list
          | Raised e => Raised e
          end
      | None => courses_loop records rest courses
      end
  end.

(** Every topic of a course, module after module. *)
Definition all_topics (meta : CourseMeta) : list TopicMeta :=
  flat_map m_topics (c_modules meta).

(** Whether the double-precision percentage is the exact quotient. *)
Definition percent_exact (completed total : nat) : bool :=
  match percent (Z.of_nat completed) (Z.of_nat total) with
  | Returned p => p =? Z.of_nat completed * 100 / Z.of_nat total
  | Raised _ => false
  end.

(** A tool that can be started: every command runs to an exit status. *)
Definition spawns (git : GitTool) : Prop :=
  forall n args, git n args <> NoSuchFile.

(** A tool whose every command succeeds and prints nothing, and one that
    cannot be started at all. *)
Definition always_ok : GitTool :=
  fun _ _ => Spawned {| returncode := 0; stdout := "" |}.


(** ** Scenarios

    The content root after [init_repo], and the worlds reached from it by
    creating a course, a module in it and a topic in the module with a
    ledger that succeeds. *)

Definition initial_world : World :=
  {| store := {| index_json := [];
                 directories := list_to_set (dir_prefixes COURSES_DIR);
                 course_json := ∅;
                 topic_md := ∅ |};
     git_log := [] |}.

Definition cs101 : CourseCreate := {| cc_code := "CS101"; cc_name := "Algorithms" |}.
Definition basics : ModuleCreate := {| mc_title := "Basics" |}.
Definition algo_basics : TopicCreate := TopicCreate_of_body "Algo Basics" None None.

Definition course1 : CourseMeta := new_course cs101 (store initial_world).
Definition module1 : ModuleMeta := new_module basics course1.
Definition topic1 : TopicMeta := new_topic algo_basics module1.

Definition world_with_course : World := (create_course always_ok cs101 initial_world).1.
Definition world_with_module : World :=
  (create_module always_ok 1 basics world_with_course).1.
Definition world_with_topic : World :=
  (create_topic always_ok 1 1 algo_basics world_with_module).1.


(** An index entry whose course has no [course.json]. *)
Definition orphan_world : World :=
  {| store := {| index_json := [{| r_id := 1; r_slug := "cs101-algorithms" |}];
                 directories := list_to_set (dir_prefixes COURSES_DIR);
                 course_json := ∅;
                 topic_md := ∅ |};
     git_log := [] |}.

(** Fifty topics titled "Topic" in one module, the first [done] of them
    completed: what fifty calls of [create_topic] and [done] calls of
    [update_topic] leave in [course.json]. *)
Definition numbered_topic (done : nat) (i : nat) : TopicMeta :=
  {| t_id := Z.of_nat i; t_title := "Topic"; t_slug := "topic";
     t_file := "basics/topic.md"; t_completed := (i <=? done)%nat;
     t_priority := "medium"; t_time := 15; t_locked := false |}.

Definition course_of_50 (done : nat) : CourseMeta :=
  {| c_id := 1; c_code := "CS101"; c_name := "Algorithms";
     c_slug := "cs101-algorithms"; c_progress := 0;
     c_modules :=
       [{| m_id := 1; m_title := "Basics"; m_slug := "basics";
           m_completed := false;
           m_topics := map (numbered_topic done) (seq 1 50) |}] |}.

Definition world_of_50 (done : nat) : World :=
  {| store := {| index_json := [{| r_id := 1; r_slug := "cs101-algorithms" |}];
                 directories := list_to_set (dir_prefixes COURSES_DIR);
                 course_json := {[ meta_file_of "cs101-algorithms" := course_of_50 done ]};
                 topic_md := ∅ |};
     git_log := [] |}.

(** ** Well-formed content roots

    What the handlers keep true of the content root: ids count from 1 in
    every scope (the index, the modules of a course, the topics of a
    module), every index entry has its directory and its [course.json],
    which carries the entry's id and slug, and every topic has its content
    file. *)

Definition consecutive {A} (id : A -> Z) (l : list A) : Prop :=
  forall (i : nat) (x : A), l !! i = Some x -> id x = Z.of_nat i + 1.

Definition topic_ok (st : Store) (course_slug : string) (topic : TopicMeta) : Prop :=
  is_Some (topic_md st !! topic_path course_slug (t_file topic)).

Definition module_ok (st : Store) (course_slug : string) (module : ModuleMeta) : Prop :=
  consecutive t_id (m_topics module)
  /\ Forall (topic_ok st course_slug) (m_topics module).

Definition meta_ok (st : Store) (course_ref : CourseRef) (meta : CourseMeta) : Prop :=
  c_id meta = r_id course_ref
  /\ c_slug meta = r_slug course_ref
  /\ consecutive m_id (c_modules meta)
  /\ Forall (module_ok st (r_slug course_ref)) (c_modules meta).

Definition course_ok (st : Store) (course_ref : CourseRef) : Prop :=
  course_dir_of (r_slug course_ref) ∈ directories st
  /\ exists meta,
       course_json st !! meta_file_of (r_slug course_ref) = Some meta
       /\ meta_ok st course_ref meta.

Definition store_ok (st : Store) : Prop :=
  consecutive r_id (index_json st) /\ Forall (course_ok st) (index_json st).

(** The worlds the handlers can produce from the content root [init_repo]
    leaves, whatever the version-control tool does during each request.
    The reading handlers leave the world as it is. *)
Inductive reachable : World -> Prop :=
  | reach_init : reachable initial_world
  | reach_create_course git course w :
      reachable w -> reachable (create_course git course w).1
  | reach_create_module git course_id module w :
      reachable w -> reachable (create_module git course_id module w).1
  | reach_create_topic git course_id module_id topic w :
      reachable w -> reachable (create_topic git course_id module_id topic w).1
  | reach_update_topic git course_id module_id topic_id updates w :
      reachable w ->
      reachable (update_topic git course_id module_id topic_id updates w).1.

(** The content root after [os.makedirs(path, exist_ok=True)], after
    [save_course_meta(course_slug, meta)] and after a topic body is
    written. *)
Definition add_dirs (path : string) (st : Store) : Store :=
  {| index_json := index_json st;
     directories := directories st ∪ list_to_set (dir_prefixes path);
     course_json := course_json st;
     topic_md := topic_md st |}.

Definition put_record (course_slug : string) (meta : CourseMeta) (st : Store) : Store :=
  {| index_json := index_json st;
     directories := directories st
                    ∪ list_to_set (dir_prefixes (course_dir_of course_slug));
     course_json := <[meta_file_of course_slug := meta]> (course_json st);
     topic_md := topic_md st |}.

Definition put_file (path text : string) (st : Store) : Store :=
  {| index_json := index_json st;
     directories := directories st;
     course_json := course_json st;
     topic_md := <[path := text]> (topic_md st) |}.

(** The record of a course after a topic is appended to, and after the
    completion flag is set in, the first module and topic with the ids. *)
Definition meta_with_topic (module_id : Z) (created : TopicMeta) (meta : CourseMeta)
    : CourseMeta :=
  with_modules
    (update_first (fun m => m_id m =? module_id)
       (fun m => with_topics (m_topics m ++ [created])%list m)
       (c_modules meta))
    meta.

Definition meta_with_completed (module_id topic_id : Z) (completed : bool)
    (meta : CourseMeta) : CourseMeta :=
  with_modules
    (update_first (fun m => m_id m =? module_id)
       (fun m =>
          with_topics
            (update_first (fun t => t_id t =? topic_id)
               (with_completed completed) (m_topics m))
            m)
       (c_modules meta))
    meta.

(** The indexed courses that have a record, and their modules, in
    traversal order. *)
Definition stored_courses (st : Store) : list (CourseRef * CourseMeta) :=
  flat_map
    (fun course_ref =>
       match course_json st !! meta_file_of (r_slug course_ref) with
       | None => []
       | Some meta => [(course_ref, meta)]
       end)
    (index_json st).

Definition stored_modules (st : Store) : list (CourseMeta * ModuleMeta) :=
  flat_map (fun '(_, meta) => map (fun module => (meta, module)) (c_modules meta))
    (stored_courses st).

Definition is_course_hit (r : SearchResult) : bool :=
  match r with
  | CourseHit _ _ => true
  | _ => false
  end.

Definition is_module_hit (r : SearchResult) : bool :=
  match r with
  | ModuleHit _ _ _ => true
  | _ => false
  end.

(** The bound up to which the double-precision percentage is checked
    exhaustively, and the check made at each count. *)
Definition checked_topics : nat := 300.

Definition percent_close (completed total : nat) : bool :=
  match percent (Z.of_nat completed) (Z.of_nat total) with
  | Returned p =>
      let exact := Z.of_nat completed * 100 / Z.of_nat total in
      (0 <=? p) && (p <=? 100) && (exact - 1 <=? p) && (p <=? exact)
      && (if (completed =? total)%nat then p =? 100 else true)
      && (if (completed =? 0)%nat then p =? 0 else true)
  | Raised _ => false
  end.

(** Every module of every indexed course has its directory. *)
Definition module_dirs_ok (st : Store) : Prop :=
  Forall
    (fun course_ref =>
       forall meta,
         course_json st !! meta_file_of (r_slug course_ref) = Some meta ->
         Forall (fun module =>
                   module_dir_of (r_slug course_ref) (m_slug module) ∈ directories st)
           (c_modules meta))
    (index_json st).

(** ** Start-up

    [init_repo()], which runs when the module is imported.  [index_exists]
    tells whether [index.json] is on disk; when it is not, the index of the
    world is not read and the empty index is written.  The three git
    commands run without [check], so their exit status is not looked at. *)
Definition init_repo (git : GitTool) (index_exists : bool) : M unit :=
  let* _ := makedirs COURSES_DIR in
  let* _ := (if index_exists then ret tt else save_index []) in
  let* has_git := read (fun st => os_path_exists st (REPO_PATH ++ "/.git")) in
  if has_git
  then ret tt
  else
    let* _ := subprocess_run git ["git"; "init"] false in
    let* _ := subprocess_run git ["git"; "config"; "user.name"; "CourseMap"] false in
    let* _ := subprocess_run git ["git"; "config"; "user.email"; "coursemap@local"] false in
    ret tt.

(** The commands one [git_commit_push(message)] can leave in the log: a
    non-empty prefix of add, commit, remote, push. *)
Definition ledger_step (message : string) (cmds : list (list string)) : Prop :=
  let add := ["git"; "add"; "."] in
  let commit := ["git"; "commit"; "-m"; message] in
  let remote := ["git"; "remote"] in
  let push := ["git"; "push"] in
  cmds = [add] \/ cmds = [add; commit] \/ cmds = [add; commit; remote]
  \/ cmds = [add; commit; remote; push].

Definition has_file (st : Store) (course_slug : string) (topic : TopicMeta) : bool :=
  match topic_md st !! topic_path course_slug (t_file topic) with
  | Some _ => true
  | None => false
  end.

(** The topic of the scenario rewritten and marked complete. *)
Definition revise : TopicUpdate :=
  {| tu_content := Some "Sorting and searching"; tu_completed := Some true |}.
Definition world_after_update : World :=
  (update_topic always_ok 1 1 1 revise world_with_topic).1.

(** ** Properties of the text helpers *)

Module TextFacts.
Import Text.

Ltac each_char c := destruct c as [[] [] [] [] [] [] [] []].

Lemma lower_char_settled c : settled (lower_char c) = true.
Proof. each_char c; reflexivity. Qed.

Lemma settled_eq c : settled c = true -> lower_char c = c.
Proof. unfold settled. intros H. by apply Ascii.eqb_eq. Qed.

Lemma hyphen_eq c : is_hyphen c = true -> c = "-"%char.
Proof. each_char c; vm_compute; congruence. Qed.

Lemma word_not_sep c : is_word c = true -> is_sep c = false.
Proof. each_char c; vm_compute; congruence. Qed.

Lemma kept_not_sep_word c : kept_char c = true -> is_sep c = false -> is_word c = true.
Proof. each_char c; vm_compute; congruence. Qed.

Lemma sep_hyphen c : is_hyphen c = true -> is_sep c = true.
Proof. unfold is_sep. by intros ->. Qed.

Lemma not_sep_not_space c : is_sep c = false -> isspace c = false.
Proof. unfold is_sep. by intros [_ ?]%orb_false_iff. Qed.

Lemma not_sep_not_hyphen c : is_sep c = false -> is_hyphen c = false.
Proof. unfold is_sep. by intros [? _]%orb_false_iff. Qed.

Lemma word_kept c : is_word c = true -> kept_char c = true.
Proof. unfold kept_char. by intros ->. Qed.

Lemma hyphen_kept c : is_hyphen c = true -> kept_char c = true.
Proof. unfold kept_char. intros ->. by rewrite !orb_true_r. Qed.

Lemma all_chars_lower text : all_chars settled (lower text) = true.
Proof.
  induction text as [|c rest IH]; simpl; [done|].
  by rewrite lower_char_settled, IH.
Qed.

Lemma all_chars_lstrip P text :
  all_chars P text = true -> all_chars P (lstrip text) = true.
Proof.
  induction text as [|c rest IH]; simpl; [done|].
  intros [Hc Hr]%andb_true_iff.
  destruct (isspace c); [by apply IH|].
  simpl. by rewrite Hc, Hr.
Qed.

Lemma all_chars_rstrip P text :
  all_chars P text = true -> all_chars P (rstrip text) = true.
Proof.
  induction text as [|c rest IH]; simpl; [done|].
  intros [Hc Hr]%andb_true_iff. specialize (IH Hr).
  destruct (rstrip rest) as [|d kept].
  - destruct (isspace c); simpl; [done|]. by rewrite Hc.
  - simpl in *. by rewrite Hc, IH.
Qed.

Lemma all_chars_remove_unsafe P text :
  all_chars P text = true -> all_chars P (remove_unsafe text) = true.
Proof.
  induction text as [|c rest IH]; simpl; [done|].
  intros [Hc Hr]%andb_true_iff.
  destruct (kept_char c); simpl; [by rewrite Hc, IH | by apply IH].
Qed.

Lemma remove_unsafe_kept text : all_chars kept_char (remove_unsafe text) = true.
Proof.
  induction text as [|c rest IH]; simpl; [done|].
  destruct (kept_char c) eqn:Hc; simpl; [by rewrite Hc, IH | done].
Qed.

Lemma canon_collapse text :
  all_chars settled text = true -> all_chars kept_char text = true ->
  forall in_run, canon in_run (collapse_from in_run text) = true.
Proof.
  induction text as [|c rest IH]; simpl; [done|].
  intros [Hs Hsr]%andb_true_iff [Hk Hkr]%andb_true_iff in_run.
  destruct (is_sep c) eqn:Hsep.
  - destruct in_run; [by apply IH|].
    simpl. by apply IH.
  - simpl. rewrite (not_sep_not_hyphen _ Hsep).
    rewrite (kept_not_sep_word _ Hk Hsep), Hs. simpl. by apply IH.
Qed.

Lemma canon_slugify text : canon false (slugify text) = true.
Proof.
  unfold slugify, collapse_seps. apply canon_collapse.
  - apply all_chars_remove_unsafe. unfold strip.
    apply all_chars_rstrip, all_chars_lstrip, all_chars_lower.
  - apply remove_unsafe_kept.
Qed.

(** What [canon] says of one character and of the rest. *)
Lemma canon_cons p c rest :
  canon p (String c rest) = true ->
  lower_char c = c /\ isspace c = false /\ kept_char c = true
  /\ exists p', canon p' rest = true
       /\ collapse_from p (String c rest) = String c (collapse_from p' rest).
Proof.
  simpl. destruct (is_hyphen c) eqn:Hh.
  - intros [Hp Hr]%andb_true_iff. apply negb_true_iff in Hp. subst p.
    pose proof (hyphen_eq _ Hh) as ->.
    repeat split; try reflexivity. exists true. by split.
  - intros [[Hw Hs]%andb_true_iff Hr]%andb_true_iff.
    pose proof (word_not_sep _ Hw) as Hsep.
    repeat split.
    + by apply settled_eq.
    + by apply not_sep_not_space.
    + by apply word_kept.
    + exists false. rewrite Hsep. by split.
Qed.

Lemma canon_lower text : forall p, canon p text = true -> lower text = text.
Proof.
  induction text as [|c rest IH]; [done|].
  intros p (Hl & _ & _ & p' & Hr & _)%canon_cons.
  simpl. by rewrite Hl, (IH p').
Qed.













End TextFacts.



(** ** Properties of the ledger *)

Lemma keeps_store_ret {A} (a : A) : keeps_store (ret a).
Proof. by intros w. Qed.

Lemma keeps_store_raise {A} (e : exn) : keeps_store (@raise A e).
Proof. by intros w. Qed.

Lemma keeps_store_read {A} (f : Store -> A) : keeps_store (read f).
Proof. by intros w. Qed.

Lemma keeps_store_bind {A B} (m : M A) (k : A -> M B) :
  keeps_store m -> (forall a, keeps_store (k a)) -> keeps_store (bind m k).
Proof.
  intros Hm Hk w. unfold bind. specialize (Hm w).
  destruct (m w) as [w' [a|e]]; simpl in *; [|done].
  by rewrite Hk.
Qed.

Lemma keeps_store_try {A} (body : M A) (handler : exn -> M A) :
  keeps_store body -> (forall e, keeps_store (handler e)) ->
  keeps_store (try_except body handler).
Proof.
  intros Hm Hk w. unfold try_except. specialize (Hm w).
  destruct (body w) as [w' [a|e]]; simpl in *; [done|].
  by rewrite Hk.
Qed.

Lemma keeps_store_run git args check : keeps_store (subprocess_run git args check).
Proof.
  intros w. unfold subprocess_run.
  destruct (git _ args) as [p|]; [|done].
  by destruct (check && _).
Qed.

Lemma keeps_store_commit git message : keeps_store (git_commit_push git message).
Proof.
  unfold git_commit_push.
  apply keeps_store_try.
  - repeat (apply keeps_store_bind; [try apply keeps_store_run | intros ?]);
      try apply keeps_store_ret.
    destruct (Text.strip _); [apply keeps_store_ret|].
    apply keeps_store_bind; [apply keeps_store_run | intros; apply keeps_store_ret].
  - intros []; try apply keeps_store_raise. apply keeps_store_ret.
Qed.

(** The shape of every call site: a commit whose result is dropped. *)
Lemma commit_then {A} git message (a : A) w :
  exists w',
    store w' = store w
    /\ ((let* _ := git_commit_push git message in ret a) w = (w', Returned a)
        \/ exists e, (let* _ := git_commit_push git message in ret a) w = (w', Raised e)).
Proof.
  pose proof (keeps_store_commit git message w) as H.
  unfold bind. destruct (git_commit_push git message w) as [w' [b|e]]; simpl in H.
  - exists w'. split; [done|]. by left.
  - exists w'. split; [done|]. right. by exists e.
Qed.

Lemma commit_then_returned {A} git message (a b : A) w w' :
  (let* _ := git_commit_push git message in ret a) w = (w', Returned b) ->
  store w' = store w /\ b = a.
Proof.
  destruct (commit_then git message a w) as (w1 & Hst & [H|[e H]]); rewrite H.
  - by intros [= <- <-].
  - done.
Qed.

(** ** Properties of the handlers *)

(** Runs the store primitives of a handler applied to a world, leaving the
    ledger call, the text helpers and the path arithmetic folded. *)
Ltac run :=
  cbv beta iota zeta delta
    [bind read write ret raise makedirs save_course_meta load_index save_index
     get_course_meta write_text read_text_or_empty calculate_progress];
  cbn [store git_log index_json directories course_json topic_md].

Lemma dir_prefixes_self path : path ∈ dir_prefixes path.
Proof.
  induction path as [|c rest IH]; simpl; [set_solver|].
  apply elem_of_app. right. by apply list_elem_of_fmap_2.
Qed.

Lemma create_course_fresh git course w :
  os_path_exists (store w)
    (course_dir_of (Text.slugify (cc_code course ++ "-" ++ cc_name course))) = false ->
  exists w',
    store w' = store_with_course course (store w)
    /\ (create_course git course w = (w', Returned (new_course course (store w)))
        \/ exists e, create_course git course w = (w', Raised e)).
Proof.
  intros Hfresh. unfold create_course. run. rewrite Hfresh.
  match goal with
  | |- context [git_commit_push git ?msg ?w0] =>
      destruct (commit_then git msg (new_course course (store w)) w0)
        as (w' & Hst & Hrun)
  end.
  exists w'. split; [exact Hst | exact Hrun].
Qed.

Lemma exists_of_directory st path :
  path ∈ directories st -> os_path_exists st path = true.
Proof.
  intros H. unfold os_path_exists. by rewrite (bool_decide_eq_true_2 _ H).
Qed.

Lemma create_course_existing git course w :
  os_path_exists (store w)
    (course_dir_of (Text.slugify (cc_code course ++ "-" ++ cc_name course))) = true ->
  create_course git course w
    = (w, Raised (HTTPException 400 "Course already exists")).
Proof. intros Hex. unfold create_course. run. by rewrite Hex. Qed.

(** C2.  When the directory of the new course's slug exists, [create_course]
    raises the 400 fault and the world is the one it started from: index,
    records, content files and ledger are untouched.  So a second creation
    with the same code and name is rejected, whatever the first one and its
    ledger did. *)
Theorem create_course_rejects_existing git (course : CourseCreate) (w : World) :
  (course_dir_of (Text.slugify (cc_code course ++ "-" ++ cc_name course))
     ∈ directories (store w) ->
   create_course git course w
     = (w, Raised (HTTPException 400 "Course already exists")))
  /\ forall git',
       let w1 := (create_course git' course w).1 in
       create_course git course w1
         = (w1, Raised (HTTPException 400 "Course already exists")).
Proof.
  split.
  - intros Hdir. by apply create_course_existing, exists_of_directory.
  - intros git' w1. apply create_course_existing. subst w1.
    destruct (os_path_exists (store w)
                (course_dir_of (Text.slugify (cc_code course ++ "-" ++ cc_name course))))
      eqn:Hex.
    + by rewrite (create_course_existing git' course w Hex).
    + destruct (create_course_fresh git' course w Hex) as (w' & Hst & [H|[e H]]);
        rewrite H; cbn [fst]; rewrite Hst; apply exists_of_directory;
        unfold store_with_course; cbn [directories new_course c_slug];
        apply elem_of_union_r, elem_of_list_to_set, dir_prefixes_self.
Qed.

(** *** Listing: the loop of [get_courses] as a function of the records *)

Lemma get_courses_run w :
  get_courses w = (w, courses_loop (course_json (store w)) (index_json (store w)) []).
Proof.
  unfold get_courses. run.
  generalize (@nil CourseMeta) as courses.
  induction (index_json (store w)) as [|course_ref rest IH]; intros courses.
  - reflexivity.
  - cbn [foldM courses_loop]. unfold list_course at 1. run.
    destruct (course_json (store w) !! meta_file_of (r_slug course_ref))
      as [meta|] eqn:Hmeta; run; [|apply IH].
    rewrite Hmeta.
    destruct (count_course meta) as [total completed]. cbn [fst snd]. run.
    destruct (percent completed total) as [progress|e]; [apply IH | reflexivity].
Qed.

Lemma courses_loop_skip records before course_ref after courses :
  records !! meta_file_of (r_slug course_ref) = None ->
  courses_loop records (before ++ course_ref :: after) courses
  = courses_loop records (before ++ after) courses.
Proof.
  intros Hnone. revert courses.
  induction before as [|r before IH]; intros courses.
  - cbn [app courses_loop]. by rewrite Hnone.
  - cbn [app courses_loop].
    destruct (records !! meta_file_of (r_slug r)) as [meta|]; [|apply IH].
    destruct (percent _ _); [apply IH | reflexivity].
Qed.

Lemma absent_metadata git (w : World) (course_id : Z) (course_ref : CourseRef) :
  find_course course_id (index_json (store w)) = Some course_ref ->
  course_json (store w) !! meta_file_of (r_slug course_ref) = None ->
  get_course course_id w
    = (w, Raised (HTTPException 404 "Course metadata not found"))
  /\ (forall before after,
        index_json (store w) = (before ++ course_ref :: after)%list ->
        (get_courses w).2
        = (get_courses
             {| store := {| index_json := before ++ after;
                            directories := directories (store w);
                            course_json := course_json (store w);
                            topic_md := topic_md (store w) |};
                git_log := git_log w |}).2)
  /\ (forall module,
        create_module git course_id module w
        = ({| store :=
                {| index_json := index_json (store w);
                   directories :=
                     directories (store w)
                     ∪ list_to_set
                         (dir_prefixes
                            (module_dir_of (r_slug course_ref)
                               (Text.slugify (mc_title module))));
                   course_json := course_json (store w);
                   topic_md := topic_md (store w) |};
              git_log := git_log w |},
           Raised AttributeError))
  /\ (forall module_id topic,
        create_topic git course_id module_id topic w = (w, Raised TypeError))
  /\ (forall module_id topic_id,
        get_topic course_id module_id topic_id w = (w, Raised TypeError))
  /\ (forall module_id topic_id updates,
        update_topic git course_id module_id topic_id updates w
        = (w, Raised TypeError)).
Proof.
  intros Hfind Hnone.
  split; [|split; [|split; [|split; [|split]]]].
  - unfold get_course. run. rewrite Hfind. run. by rewrite Hnone.
  - intros before after Hidx. rewrite !get_courses_run. cbn [snd store course_json index_json].
    rewrite Hidx. by apply courses_loop_skip.
  - intros module. unfold create_module. run. rewrite Hfind. run. by rewrite Hnone.
  - intros module_id topic. unfold create_topic. run. rewrite Hfind. run. by rewrite Hnone.
  - intros module_id topic_id. unfold get_topic. run. rewrite Hfind. run. by rewrite Hnone.
  - intros module_id topic_id updates. unfold update_topic. run. rewrite Hfind. run.
    by rewrite Hnone.
Qed.

(** C10.  When the index resolves a course id but the course has no
    [course.json]: [get_course] answers 404, [get_courses] lists the other
    courses as if the entry were not in the index, and [create_module],
    [create_topic], [get_topic] and [update_topic] end in an unhandled
    [AttributeError] or [TypeError] instead of a 404. *)
Theorem missing_metadata_faults git (w : World) (course_id : Z) (course_ref : CourseRef) :
  find_course course_id (index_json (store w)) = Some course_ref ->
  course_json (store w) !! meta_file_of (r_slug course_ref) = None ->
  get_course course_id w
    = (w, Raised (HTTPException 404 "Course metadata not found"))
  /\ (forall before after,
        index_json (store w) = (before ++ course_ref :: after)%list ->
        (get_courses w).2
        = (get_courses
             {| store := {| index_json := before ++ after;
                            directories := directories (store w);
                            course_json := course_json (store w);
                            topic_md := topic_md (store w) |};
                git_log := git_log w |}).2)
  /\ (forall module,
        create_module git course_id module w
        = ({| store :=
                {| index_json := index_json (store w);
                   directories :=
                     directories (store w)
                     ∪ list_to_set
                         (dir_prefixes
                            (module_dir_of (r_slug course_ref)
                               (Text.slugify (mc_title module))));
                   course_json := course_json (store w);
                   topic_md := topic_md (store w) |};
              git_log := git_log w |},
           Raised AttributeError))
  /\ (forall module_id topic,
        create_topic git course_id module_id topic w = (w, Raised TypeError))
  /\ (forall module_id topic_id,
        get_topic course_id module_id topic_id w = (w, Raised TypeError))
  /\ (forall module_id topic_id updates,
        update_topic git course_id module_id topic_id updates w
        = (w, Raised TypeError)).
Proof. apply absent_metadata. Qed.

(** *** Resolution of ids *)

(** With the record of the course present, each handler stops at the first
    id that does not resolve and names that level; the world is untouched. *)
Lemma resolution_fails_fast git (w : World) (course_id module_id topic_id : Z) :
  (find_course course_id (index_json (store w)) = None ->
   get_course course_id w = (w, Raised (HTTPException 404 "Course not found"))
   /\ (forall module,
         create_module git course_id module w
         = (w, Raised (HTTPException 404 "Course not found")))
   /\ (forall topic,
         create_topic git course_id module_id topic w
         = (w, Raised (HTTPException 404 "Course not found")))
   /\ get_topic course_id module_id topic_id w
      = (w, Raised (HTTPException 404 "Course not found"))
   /\ (forall updates,
         update_topic git course_id module_id topic_id updates w
         = (w, Raised (HTTPException 404 "Course not found"))))
  /\ (forall course_ref meta,
        find_course course_id (index_json (store w)) = Some course_ref ->
        course_json (store w) !! meta_file_of (r_slug course_ref) = Some meta ->
        (find_module module_id (c_modules meta) = None ->
         (forall topic,
            create_topic git course_id module_id topic w
            = (w, Raised (HTTPException 404 "Module not found")))
         /\ get_topic course_id module_id topic_id w
            = (w, Raised (HTTPException 404 "Module not found"))
         /\ (forall updates,
               update_topic git course_id module_id topic_id updates w
               = (w, Raised (HTTPException 404 "Module not found"))))
        /\ (forall module,
              find_module module_id (c_modules meta) = Some module ->
              find_topic topic_id (m_topics module) = None ->
              get_topic course_id module_id topic_id w
              = (w, Raised (HTTPException 404 "Topic not found"))
              /\ (forall updates,
                    update_topic git course_id module_id topic_id updates w
                    = (w, Raised (HTTPException 404 "Topic not found"))))).
Proof.
  split.
  - intros Hc.
    repeat split; intros;
      unfold get_course, create_module, create_topic, get_topic, update_topic;
      run; by rewrite Hc.
  - intros course_ref meta Hc Hmeta. split.
    + intros Hm.
      repeat split; intros; unfold create_topic, get_topic, update_topic;
        run; rewrite Hc; run; rewrite Hmeta; run; by rewrite Hm.
    + intros module Hm Ht.
      repeat split; intros; unfold get_topic, update_topic;
        run; rewrite Hc; run; rewrite Hmeta; run; rewrite Hm; run; by rewrite Ht.
Qed.

(** *** Creation *)

Lemma create_course_returned git course w w' meta :
  create_course git course w = (w', Returned meta) ->
  meta = new_course course (store w)
  /\ store w' = store_with_course course (store w).
Proof.
  intros Hrun.
  destruct (os_path_exists (store w)
              (course_dir_of (Text.slugify (cc_code course ++ "-" ++ cc_name course))))
    eqn:Hex.
  - by rewrite (create_course_existing git course w Hex) in Hrun.
  - destruct (create_course_fresh git course w Hex) as (w1 & Hst & [H|[e H]]);
      rewrite H in Hrun; [|done].
    injection Hrun as <- <-. by split.
Qed.

Lemma create_module_returned git course_id module w w' created :
  create_module git course_id module w = (w', Returned created) ->
  exists course_ref meta,
    find_course course_id (index_json (store w)) = Some course_ref
    /\ course_json (store w) !! meta_file_of (r_slug course_ref) = Some meta
    /\ created = new_module module meta
    /\ course_json (store w')
       = <[meta_file_of (r_slug course_ref) :=
             with_modules (c_modules meta ++ [created])%list meta]>
           (course_json (store w))
    /\ index_json (store w') = index_json (store w)
    /\ topic_md (store w') = topic_md (store w).
Proof.
  unfold create_module. run.
  destruct (find_course course_id (index_json (store w))) as [course_ref|] eqn:Hc;
    run; [|done].
  destruct (course_json (store w) !! meta_file_of (r_slug course_ref))
    as [meta|] eqn:Hmeta; run; [|done].
  match goal with
  | |- context [git_commit_push git ?msg ?w0] =>
      destruct (commit_then git msg (new_module module meta) w0)
        as (w1 & Hst & [H|[e H]])
  end.
  - intros Hrun. pose proof (eq_trans (eq_sym H) Hrun) as [= <- <-].
    exists course_ref, meta. rewrite Hst. by repeat split.
  - intros Hrun. by pose proof (eq_trans (eq_sym H) Hrun).
Qed.

Lemma create_topic_returned git course_id module_id topic w w' created :
  create_topic git course_id module_id topic w = (w', Returned created) ->
  exists course_ref meta module,
    find_course course_id (index_json (store w)) = Some course_ref
    /\ course_json (store w) !! meta_file_of (r_slug course_ref) = Some meta
    /\ find_module module_id (c_modules meta) = Some module
    /\ created = new_topic topic module
    /\ topic_md (store w')
       = <[topic_path (r_slug course_ref) (t_file created) := template (tc_title topic)]>
           (topic_md (store w))
    /\ course_json (store w')
       = <[meta_file_of (r_slug course_ref) :=
             with_modules
               (update_first (fun m => m_id m =? module_id)
                  (fun m => with_topics (m_topics m ++ [created])%list m)
                  (c_modules meta))
               meta]>
           (course_json (store w))
    /\ index_json (store w') = index_json (store w).
Proof.
  unfold create_topic. run.
  destruct (find_course course_id (index_json (store w))) as [course_ref|] eqn:Hc;
    run; [|done].
  destruct (course_json (store w) !! meta_file_of (r_slug course_ref))
    as [meta|] eqn:Hmeta; run; [|done].
  destruct (find_module module_id (c_modules meta)) as [module|] eqn:Hm; run; [|done].
  destruct (bool_decide _); run; [|done].
  match goal with
  | |- context [git_commit_push git ?msg ?w0] =>
      destruct (commit_then git msg (new_topic topic module) w0)
        as (w1 & Hst & [H|[e H]])
  end.
  - intros Hrun. pose proof (eq_trans (eq_sym H) Hrun) as [= <- <-].
    exists course_ref, meta, module. rewrite Hst. by repeat split.
  - intros Hrun. by pose proof (eq_trans (eq_sym H) Hrun).
Qed.

(** C6.  A creation that succeeds returns an entity whose id is the number
    of siblings present before the call plus one: the length of the index
    for a course, the number of modules of the course for a module, the
    number of topics of the module for a topic. *)
Theorem new_ids_count_siblings git (w w' : World) :
  (forall course meta,
     create_course git course w = (w', Returned meta) ->
     c_id meta = Z.of_nat (length (index_json (store w))) + 1
     /\ index_json (store w')
        = (index_json (store w) ++ [{| r_id := c_id meta; r_slug := c_slug meta |}])%list)
  /\ (forall course_id module created,
        create_module git course_id module w = (w', Returned created) ->
        exists course_ref meta,
          find_course course_id (index_json (store w)) = Some course_ref
          /\ course_json (store w) !! meta_file_of (r_slug course_ref) = Some meta
          /\ m_id created = Z.of_nat (length (c_modules meta)) + 1)
  /\ (forall course_id module_id topic created,
        create_topic git course_id module_id topic w = (w', Returned created) ->
        exists course_ref meta module,
          find_course course_id (index_json (store w)) = Some course_ref
          /\ course_json (store w) !! meta_file_of (r_slug course_ref) = Some meta
          /\ find_module module_id (c_modules meta) = Some module
          /\ t_id created = Z.of_nat (length (m_topics module)) + 1).
Proof.
  split; [|split].
  - intros course meta [-> Hst]%create_course_returned.
    rewrite Hst. by split.
  - intros course_id module created
      (course_ref & meta & Hc & Hmeta & -> & _)%create_module_returned.
    by exists course_ref, meta.
  - intros course_id module_id topic created
      (course_ref & meta & module & Hc & Hmeta & Hm & -> & _)%create_topic_returned.
    by exists course_ref, meta, module.
Qed.

(** C8.  A [create_topic] that succeeds has written the template to the
    topic's content file: a first line ["# <title>"], then the placeholder
    sections; the record it returns is not completed, not locked, and
    carries the priority and time of the request, which default to
    ["medium"] and [15]. *)
Theorem create_topic_seeds_template git (w w' : World) (course_id module_id : Z)
    (topic : TopicCreate) (created : TopicMeta) :
  (create_topic git course_id module_id topic w = (w', Returned created) ->
   exists course_ref,
     find_course course_id (index_json (store w)) = Some course_ref
     /\ topic_md (store w') !! topic_path (r_slug course_ref) (t_file created)
        = Some (template (tc_title topic))
     /\ t_title created = tc_title topic
     /\ t_completed created = false
     /\ t_locked created = false
     /\ t_priority created = tc_priority topic
     /\ t_time created = tc_time topic)
  /\ (forall title,
        template title
        = "# " ++ title
          ++ String "010" (String "010" "## Overview")
          ++ String "010" "Write your content here..."
          ++ String "010" (String "010" "## Key Concepts")
          ++ String "010" (String "010" "## Examples")
          ++ String "010" (String "010" "## Practice Problems")
          ++ String "010" "")
  /\ (forall title,
        TopicCreate_of_body title None None
        = {| tc_title := title; tc_priority := "medium"; tc_time := 15 |}).
Proof.
  split; [|split].
  - intros (course_ref & meta & module & Hc & _ & _ & -> & Hfile & _)%create_topic_returned.
    exists course_ref. split; [done|]. split; [|done].
    rewrite Hfile. apply lookup_insert_eq.
  - reflexivity.
  - reflexivity.
Qed.

(** *** Frames of [update_topic] *)

Lemma preserves_ret {X A} (part : Store -> X) (a : A) : preserves part (ret a).
Proof. by intros w. Qed.

Lemma preserves_raise {X A} (part : Store -> X) e : preserves part (@raise A e).
Proof. by intros w. Qed.

Lemma preserves_read {X A} (part : Store -> X) (f : Store -> A) :
  preserves part (read f).
Proof. by intros w. Qed.

Lemma preserves_write {X} (part : Store -> X) (f : Store -> Store) :
  (forall st, part (f st) = part st) -> preserves part (write f).
Proof. intros Hf w. apply Hf. Qed.

Lemma preserves_bind {X A B} (part : Store -> X) (m : M A) (k : A -> M B) :
  preserves part m -> (forall a, preserves part (k a)) -> preserves part (bind m k).
Proof.
  intros Hm Hk w. unfold bind. specialize (Hm w).
  destruct (m w) as [w' [a|e]]; cbn [fst] in *; [|done].
  by rewrite Hk.
Qed.

Lemma preserves_commit {X} (part : Store -> X) git message :
  preserves part (git_commit_push git message).
Proof. intros w. by rewrite keeps_store_commit. Qed.

Lemma preserves_save_course_meta {X} (part : Store -> X) course_slug data :
  (forall st dirs records,
     part {| index_json := index_json st; directories := dirs;
             course_json := records; topic_md := topic_md st |} = part st) ->
  preserves part (save_course_meta course_slug data).
Proof.
  intros Hpart w. unfold save_course_meta. run.
  rewrite <- (Hpart (store w) (directories (store w)
                      ∪ list_to_set (dir_prefixes (course_dir_of course_slug)))
                (<[meta_file_of course_slug := data]> (course_json (store w)))).
  reflexivity.
Qed.

Lemma preserves_write_text {X} (part : Store -> X) path text :
  (forall st files,
     part {| index_json := index_json st; directories := directories st;
             course_json := course_json st; topic_md := files |} = part st) ->
  preserves part (write_text path text).
Proof.
  intros Hpart w. unfold write_text. run.
  destruct (bool_decide _); run; [|done].
  apply Hpart.
Qed.

(** C5.  [update_topic] with only [completed] set leaves every content file
    as it was; with only [content] set it leaves the index and every
    [course.json] as they were, and the record it returns is the stored
    topic, its [completed] flag included. *)
Theorem update_topic_frames git (w : World) (course_id module_id topic_id : Z) :
  (forall completed,
     topic_md
       (store (update_topic git course_id module_id topic_id
                 {| tu_content := None; tu_completed := Some completed |} w).1)
     = topic_md (store w))
  /\ (forall content,
        let result :=
          update_topic git course_id module_id topic_id
            {| tu_content := Some content; tu_completed := None |} w in
        course_json (store result.1) = course_json (store w)
        /\ index_json (store result.1) = index_json (store w)
        /\ forall topic body,
             result.2 = Returned (topic, body) ->
             exists course_ref meta module,
               find_course course_id (index_json (store w)) = Some course_ref
               /\ course_json (store w) !! meta_file_of (r_slug course_ref) = Some meta
               /\ find_module module_id (c_modules meta) = Some module
               /\ find_topic topic_id (m_topics module) = Some topic).
Proof.
  split.
  - intros completed.
    apply (preserves_bind topic_md); [apply preserves_read | intros index].
    destruct (find_course _ _) as [course_ref|]; [|apply preserves_raise].
    apply preserves_bind; [apply preserves_read | intros [meta|]];
      [|apply preserves_raise].
    destruct (find_module _ _) as [module|]; [|apply preserves_raise].
    destruct (find_topic _ _) as [topic|]; [|apply preserves_raise].
    cbn [tu_content tu_completed].
    apply preserves_bind; [apply preserves_ret | intros _].
    apply preserves_bind; [|intros ?].
    + apply preserves_bind; [by apply preserves_save_course_meta | intros _].
      apply preserves_bind; [apply preserves_commit | intros _; apply preserves_ret].
    + apply preserves_bind; [apply preserves_read | intros ?; apply preserves_ret].
  - intros content result. subst result.
    assert (forall {X} (part : Store -> X),
              (forall st files,
                 part {| index_json := index_json st; directories := directories st;
                         course_json := course_json st; topic_md := files |} = part st) ->
              preserves part
                (update_topic git course_id module_id topic_id
                   {| tu_content := Some content; tu_completed := None |})) as Hframe.
    { intros X part Hpart.
      apply preserves_bind; [apply preserves_read | intros index].
      destruct (find_course _ _) as [course_ref|]; [|apply preserves_raise].
      apply preserves_bind; [apply preserves_read | intros [meta|]];
        [|apply preserves_raise].
      destruct (find_module _ _) as [module|]; [|apply preserves_raise].
      destruct (find_topic _ _) as [topic|]; [|apply preserves_raise].
      cbn [tu_content tu_completed].
      apply preserves_bind; [|intros _].
      - apply preserves_bind; [by apply preserves_write_text | intros _].
        apply preserves_bind; [apply preserves_commit | intros _; apply preserves_ret].
      - apply preserves_bind; [apply preserves_ret | intros ?].
        apply preserves_bind; [apply preserves_read | intros ?; apply preserves_ret]. }
    split; [by apply (Hframe _ course_json)|].
    split; [by apply (Hframe _ index_json)|].
    intros topic body. unfold update_topic. run.
    destruct (find_course course_id (index_json (store w))) as [course_ref|] eqn:Hc;
      run; [|done].
    destruct (course_json (store w) !! meta_file_of (r_slug course_ref))
      as [meta|] eqn:Hmeta; run; [|done].
    destruct (find_module module_id (c_modules meta)) as [module|] eqn:Hm; run; [|done].
    destruct (find_topic topic_id (m_topics module)) as [stored|] eqn:Ht; run; [|done].
    cbn [tu_content tu_completed]. run.
    destruct (bool_decide _); run; [|done].
    destruct (git_commit_push _ _ _) as [w1 [b|e]]; run; [|done].
    intros [= <- _]. by exists course_ref, meta, module.
Qed.

(** *** The ledger cannot change what a handler does to the content root *)











Section Agreement.

Variables git git' : GitTool.
Hypothesis git_spawns : spawns git.
Hypothesis git'_spawns : spawns git'.





End Agreement.



(** *** Search *)

Lemma fold_search_topic st q course_ref meta module topics results :
  fold_left (search_topic st (Text.lower q) course_ref meta module) topics results
  = (results
     ++ map (topic_hit meta module)
          (List.filter (topic_matches st q course_ref) topics))%list.
Proof.
  revert results. induction topics as [|topic topics IH]; intros results.
  - cbn [fold_left List.filter map]. by rewrite app_nil_r.
  - cbn [fold_left List.filter]. rewrite IH.
    unfold search_topic, topic_matches, matches.
    destruct (Text.contains (Text.lower q) (Text.lower (t_title topic)));
      cbn [andb]; [|done].
    destruct (topic_md st !! topic_path (r_slug course_ref) (t_file topic))
      as [body|]; [|done].
    destruct (Text.contains (Text.lower q) (Text.lower body)); [|done].
    cbn [map]. by rewrite <- app_assoc.
Qed.

Lemma fold_search_module st q course_ref meta modules results :
  fold_left (search_module st (Text.lower q) course_ref meta) modules results
  = (results ++ flat_map (module_hits st q course_ref meta) modules)%list.
Proof.
  revert results. induction modules as [|module modules IH]; intros results.
  - cbn [fold_left flat_map]. by rewrite app_nil_r.
  - cbn [fold_left flat_map]. rewrite IH.
    unfold search_module, module_hits, matches.
    rewrite fold_search_topic.
    destruct (Text.contains (Text.lower q) (Text.lower (m_title module)));
      by rewrite <- ?app_assoc.
Qed.

Lemma fold_search_course st q refs results :
  fold_left (search_course st (Text.lower q)) refs results
  = (results ++ flat_map (course_hits st q) refs)%list.
Proof.
  revert results. induction refs as [|course_ref refs IH]; intros results.
  - cbn [fold_left flat_map]. by rewrite app_nil_r.
  - cbn [fold_left flat_map]. rewrite IH.
    unfold search_course, course_hits, matches.
    destruct (course_json st !! meta_file_of (r_slug course_ref)) as [meta|];
      [|done].
    rewrite fold_search_module.
    destruct (Text.contains (Text.lower q) (Text.lower (c_code meta))
              || Text.contains (Text.lower q) (Text.lower (c_name meta)));
      by rewrite <- ?app_assoc.
Qed.

Lemma search_results_all_hits st q : search_results st q = all_hits st q.
Proof. unfold search_results, all_hits. by rewrite fold_search_course. Qed.

Lemma filter_flat_map {A B} (p : B -> bool) (f : A -> list B) (l : list A) :
  List.filter p (flat_map f l) = flat_map (fun x => List.filter p (f x)) l.
Proof.
  induction l as [|x l IH]; [done|].
  cbn [flat_map]. by rewrite List.filter_app, IH.
Qed.

Lemma filter_map_all {A B} (p : B -> bool) (f : A -> B) (l : list A) :
  (forall x, p (f x) = true) -> List.filter p (map f l) = map f l.
Proof.
  intros Hp. induction l as [|x l IH]; [done|].
  cbn [map List.filter]. by rewrite Hp, IH.
Qed.

Lemma filter_map_comm {A B} (p : B -> bool) (f : A -> B) (l : list A) :
  List.filter p (map f l) = map f (List.filter (fun x => p (f x)) l).
Proof.
  induction l as [|x l IH]; [done|].
  cbn [map List.filter]. rewrite IH. by destruct (p (f x)).
Qed.

Lemma topic_hits_of_module st q course_ref meta module :
  List.filter is_topic_hit (module_hits st q course_ref meta module)
  = map (fun '(_, meta, module, topic) => topic_hit meta module topic)
      (List.filter (fun '(course_ref, _, _, topic) => topic_matches st q course_ref topic)
         (map (fun topic => (course_ref, meta, module, topic)) (m_topics module))).
Proof.
  unfold module_hits. rewrite List.filter_app.
  rewrite filter_map_all by done.
  rewrite filter_map_comm, map_map.
  by destruct (matches q (m_title module)).
Qed.

Lemma topic_hits_of_course st q course_ref :
  List.filter is_topic_hit (course_hits st q course_ref)
  = map (fun '(_, meta, module, topic) => topic_hit meta module topic)
      (List.filter (fun '(course_ref, _, _, topic) => topic_matches st q course_ref topic)
         match course_json st !! meta_file_of (r_slug course_ref) with
         | None => []
         | Some meta =>
             flat_map
               (fun module => map (fun topic => (course_ref, meta, module, topic))
                                (m_topics module))
               (c_modules meta)
         end).
Proof.
  unfold course_hits.
  destruct (course_json st !! meta_file_of (r_slug course_ref)) as [meta|]; [|done].
  rewrite List.filter_app.
  assert (List.filter is_topic_hit
            (if matches q (c_code meta) || matches q (c_name meta)
             then [CourseHit (c_id meta) (c_code meta ++ " - " ++ c_name meta)]
             else []) = []) as -> by by destruct (_ || _).
  cbn [app]. rewrite filter_flat_map.
  induction (c_modules meta) as [|module modules IH]; [done|].
  cbn [flat_map]. rewrite List.filter_app, map_app, <- IH.
  by rewrite topic_hits_of_module.
Qed.

(** C1.  [search] returns the first twenty, at most, of the hits taken in
    traversal order; and among all hits the topic-type ones are, in that
    order, exactly the stored topics whose title and whose content file
    both contain the query, compared in lower case: a topic whose file is
    missing or does not contain the query gives none. *)
Theorem search_returns_first_matches (w : World) (q : string) :
  search q w = (w, Returned (firstn 20 (all_hits (store w) q)))
  /\ List.filter is_topic_hit (all_hits (store w) q)
     = map (fun '(_, meta, module, topic) => topic_hit meta module topic)
         (List.filter
            (fun '(course_ref, _, _, topic) => topic_matches (store w) q course_ref topic)
            (stored_topics (store w))).
Proof.
  split.
  - unfold search, read. by rewrite search_results_all_hits.
  - unfold all_hits, stored_topics. rewrite filter_flat_map.
    induction (index_json (store w)) as [|course_ref refs IH]; [done|].
    cbn [flat_map]. rewrite List.filter_app, map_app, <- IH.
    by rewrite topic_hits_of_course.
Qed.

(** *** Progress *)

Lemma fold_count_topic topics total completed :
  fold_left count_topic topics (total, completed)
  = (total + Z.of_nat (length topics),
     completed + Z.of_nat (length (List.filter t_completed topics))).
Proof.
  revert total completed.
  induction topics as [|topic topics IH]; intros total completed.
  - cbn. f_equal; lia.
  - cbn [fold_left count_topic List.filter]. rewrite IH.
    destruct (t_completed topic); cbn [length]; f_equal; lia.
Qed.

Lemma fold_count_module modules total completed :
  fold_left count_module modules (total, completed)
  = (total + Z.of_nat (length (flat_map m_topics modules)),
     completed
     + Z.of_nat (length (List.filter t_completed (flat_map m_topics modules)))).
Proof.
  revert total completed.
  induction modules as [|module modules IH]; intros total completed.
  - cbn. f_equal; lia.
  - cbn [fold_left flat_map]. unfold count_module at 2.
    rewrite fold_count_topic, IH.
    rewrite List.filter_app, !length_app. f_equal; lia.
Qed.

(** The two counters of [calculate_progress]: every topic of every module,
    and those of them that are completed. *)
Lemma count_course_counts meta :
  count_course meta
  = (Z.of_nat (length (all_topics meta)),
     Z.of_nat (length (List.filter t_completed (all_topics meta)))).
Proof. unfold count_course, all_topics. by rewrite fold_count_module. Qed.

(** A course without topics, and a course without a record, are at 0. *)
Lemma calculate_progress_no_topics course_slug w :
  match course_json (store w) !! meta_file_of course_slug with
  | Some meta => all_topics meta = []
  | None => True
  end ->
  calculate_progress course_slug w = (w, Returned 0).
Proof.
  unfold calculate_progress. run.
  destruct (course_json (store w) !! meta_file_of course_slug) as [meta|]; [|done].
  intros Hnone. rewrite count_course_counts, Hnone. reflexivity.
Qed.

(** The double-precision result against the exact quotient, for every
    count up to 59 topics: they differ at 29 of 50 only. *)
Lemma percent_below_60 :
  forallb
    (fun total =>
       forallb
         (fun completed =>
            percent_exact completed total
            || ((completed =? 29)%nat && (total =? 50)%nat))
         (seq 0 (S total)))
    (seq 1 59) = true.
Proof. vm_compute. reflexivity. Qed.

(** C4, the failing input.  With 29 of 50 topics completed the counters
    are [(50, 29)], the exact percentage is 58 and [calculate_progress]
    returns 57: [29 / 50] rounds to a double below 0.58, and the product
    with 100 is truncated. *)
Theorem calculate_progress_29_of_50 :
  count_course (course_of_50 29) = (50, 29)
  /\ calculate_progress "cs101-algorithms" (world_of_50 29)
     = (world_of_50 29, Returned 57)
  /\ 29 * 100 / 50 = 58.
Proof. vm_compute. repeat split. Qed.

(** C9, the failing input.  The index resolves course 1, its [course.json]
    is absent: [get_course] names the course level with a 404, while the
    four other lookups raise [TypeError] or [AttributeError], which no
    handler turns into a 404. *)
Theorem lookup_without_record_is_unhandled git :
  find_course 1 (index_json (store orphan_world))
  = Some {| r_id := 1; r_slug := "cs101-algorithms" |}
  /\ get_course 1 orphan_world
     = (orphan_world, Raised (HTTPException 404 "Course metadata not found"))
  /\ get_topic 1 1 1 orphan_world = (orphan_world, Raised TypeError)
  /\ (forall topic,
        create_topic git 1 1 topic orphan_world = (orphan_world, Raised TypeError))
  /\ (forall updates,
        update_topic git 1 1 1 updates orphan_world = (orphan_world, Raised TypeError))
  /\ (forall module,
        (create_module git 1 module orphan_world).2 = Raised AttributeError).
Proof.
  assert (find_course 1 (index_json (store orphan_world))
          = Some {| r_id := 1; r_slug := "cs101-algorithms" |}) as Hfind by done.
  assert (course_json (store orphan_world) !! meta_file_of "cs101-algorithms" = None)
    as Hnone by apply lookup_empty.
  destruct (absent_metadata git orphan_world 1 _ Hfind Hnone)
    as (Hcourse & _ & Hmodule & Htopic & Hget & Hupdate).
  repeat split; try done.
Qed.

(** ** The scenarios, run *)

Example create_course_cs101 :
  create_course always_ok cs101 initial_world
  = (world_with_course, Returned course1).
Proof. vm_compute. reflexivity. Qed.

Example create_module_basics :
  create_module always_ok 1 basics world_with_course
  = (world_with_module, Returned module1).
Proof. vm_compute. reflexivity. Qed.

Example create_topic_algo_basics :
  create_topic always_ok 1 1 algo_basics world_with_module
  = (world_with_topic,
     Returned
       {| t_id := 1; t_title := "Algo Basics"; t_slug := "algo-basics";
          t_file := "basics/algo-basics.md"; t_completed := false;
          t_priority := "medium"; t_time := 15; t_locked := false |}).
Proof. vm_compute. reflexivity. Qed.

Example search_algo :
  search "algo" world_with_topic
  = (world_with_topic,
     Returned [CourseHit 1 "CS101 - Algorithms";
               TopicHit 1 1 1 "CS101 > Basics > Algo Basics"]).
Proof. vm_compute. reflexivity. Qed.

(** The same topic with a body that does not contain the query: the title
    alone gives no topic hit. *)
Example search_algo_title_only :
  (let* _ := update_topic always_ok 1 1 1
               {| tu_content := Some "Sorting and searching"; tu_completed := None |} in
   search "algo") world_with_topic
  = ((update_topic always_ok 1 1 1
        {| tu_content := Some "Sorting and searching"; tu_completed := None |}
        world_with_topic).1,
     Returned [CourseHit 1 "CS101 - Algorithms"]).
Proof. vm_compute. reflexivity. Qed.

(** C2, at the world in which CS101 exists. *)
Lemma create_course_rejects_existing_witness :
  course_dir_of (Text.slugify (cc_code cs101 ++ "-" ++ cc_name cs101))
    ∈ directories (store world_with_course)
  /\ create_course always_ok cs101 world_with_course
     = (world_with_course, Raised (HTTPException 400 "Course already exists")).
Proof.
  assert (course_dir_of (Text.slugify (cc_code cs101 ++ "-" ++ cc_name cs101))
            ∈ directories (store world_with_course)) as Hdir.
  { refine (bool_decide_unpack _ _). vm_compute. exact I. }
  split; [exact Hdir|].
  exact (proj1 (create_course_rejects_existing always_ok cs101 world_with_course) Hdir).
Defined.



(** C5, on the topic of the scenario. *)
Lemma update_topic_frames_witness :
  let result :=
    update_topic always_ok 1 1 1
      {| tu_content := Some "Sorting and searching"; tu_completed := None |}
      world_with_topic in
  result.2 = Returned (topic1, "Sorting and searching")
  /\ exists course_ref meta module,
       find_course 1 (index_json (store world_with_topic)) = Some course_ref
       /\ course_json (store world_with_topic) !! meta_file_of (r_slug course_ref)
          = Some meta
       /\ find_module 1 (c_modules meta) = Some module
       /\ find_topic 1 (m_topics module) = Some topic1.
Proof.
  intros result.
  assert (result.2
          = Returned (topic1, "Sorting and searching")) as Hrun.
  { vm_compute. reflexivity. }
  split; [exact Hrun|].
  exact (proj2 (proj2 (proj2 (update_topic_frames always_ok world_with_topic 1 1 1)
                         "Sorting and searching")) _ _ Hrun).
Defined.

(** C6, on the three creations of the scenario. *)
Lemma new_ids_count_siblings_witness :
  c_id course1 = 1
  /\ (exists course_ref meta,
        find_course 1 (index_json (store world_with_course)) = Some course_ref
        /\ course_json (store world_with_course) !! meta_file_of (r_slug course_ref)
           = Some meta
        /\ m_id module1 = Z.of_nat (length (c_modules meta)) + 1)
  /\ (exists course_ref meta module,
        find_course 1 (index_json (store world_with_module)) = Some course_ref
        /\ course_json (store world_with_module) !! meta_file_of (r_slug course_ref)
           = Some meta
        /\ find_module 1 (c_modules meta) = Some module
        /\ t_id topic1 = Z.of_nat (length (m_topics module)) + 1).
Proof.
  split; [|split].
  - exact (proj1 (proj1 (new_ids_count_siblings always_ok initial_world world_with_course)
                    cs101 _ create_course_cs101)).
  - exact (proj1 (proj2 (new_ids_count_siblings always_ok world_with_course
                           world_with_module))
             1 basics _ create_module_basics).
  - exact (proj2 (proj2 (new_ids_count_siblings always_ok world_with_module
                           world_with_topic))
             1 1 algo_basics _ create_topic_algo_basics).
Defined.


(** C8, on the topic of the scenario. *)
Lemma create_topic_seeds_template_witness :
  create_topic always_ok 1 1 algo_basics world_with_module
  = (world_with_topic, Returned topic1)
  /\ exists course_ref,
       find_course 1 (index_json (store world_with_module)) = Some course_ref
       /\ topic_md (store world_with_topic)
            !! topic_path (r_slug course_ref) "basics/algo-basics.md"
          = Some (template "Algo Basics")
       /\ t_title topic1 = "Algo Basics"
       /\ t_completed topic1 = false
       /\ t_locked topic1 = false
       /\ t_priority topic1 = "medium"
       /\ t_time topic1 = 15.
Proof.
  split; [exact create_topic_algo_basics|].
  exact (proj1 (create_topic_seeds_template always_ok world_with_module
                  world_with_topic 1 1 algo_basics _)
           create_topic_algo_basics).
Defined.

(** C10, on the index entry without a record. *)
Lemma missing_metadata_faults_witness :
  find_course 1 (index_json (store orphan_world))
  = Some {| r_id := 1; r_slug := "cs101-algorithms" |}
  /\ course_json (store orphan_world) !! meta_file_of "cs101-algorithms" = None
  /\ get_course 1 orphan_world
     = (orphan_world, Raised (HTTPException 404 "Course metadata not found"))
  /\ get_topic 1 1 1 orphan_world = (orphan_world, Raised TypeError)
  /\ (get_courses orphan_world).2 = Returned [].
Proof.
  assert (find_course 1 (index_json (store orphan_world))
          = Some {| r_id := 1; r_slug := "cs101-algorithms" |}) as Hfind
    by reflexivity.
  assert (course_json (store orphan_world) !! meta_file_of "cs101-algorithms" = None)
    as Hnone by reflexivity.
  destruct (missing_metadata_faults always_ok orphan_world 1 _ Hfind Hnone)
    as (Hcourse & Hlist & _ & _ & Hget & _).
  split; [exact Hfind|]. split; [exact Hnone|]. split; [exact Hcourse|].
  split; [exact (Hget 1 1)|].
  exact (Hlist [] [] eq_refl).
Defined.

(** ** Further properties: well-formed content roots *)

Lemma consecutive_nil {A} (id : A -> Z) : consecutive id [].
Proof. by intros i x. Qed.

Lemma consecutive_snoc {A} (id : A -> Z) (l : list A) (x : A) :
  consecutive id l -> id x = Z.of_nat (length l) + 1 -> consecutive id (l ++ [x]).
Proof.
  intros Hl Hx i y Hi.
  destruct (decide (i < length l)%nat) as [Hlt|Hge].
  - rewrite lookup_app_l in Hi by done. by apply Hl.
  - rewrite lookup_app_r in Hi by lia.
    destruct (i - length l)%nat as [|k] eqn:Hk; [|done].
    injection Hi as <-. rewrite Hx. f_equal. f_equal. lia.
Qed.

Lemma update_first_lookup {A} (p : A -> bool) (f : A -> A) (l : list A) i x :
  update_first p f l !! i = Some x ->
  exists y, l !! i = Some y /\ (x = y \/ (p y = true /\ x = f y)).
Proof.
  revert i. induction l as [|a l IH]; intros i; [done|].
  cbn [update_first]. destruct (p a) eqn:Hp.
  - destruct i as [|i]; cbn.
    + intros [= <-]. exists a. split; [done|]. by right.
    + intros Hi. exists x. split; [done|]. by left.
  - destruct i as [|i]; cbn.
    + intros [= <-]. exists a. split; [done|]. by left.
    + apply IH.
Qed.

Lemma consecutive_update_first {A} (id : A -> Z) p f (l : list A) :
  (forall x, id (f x) = id x) -> consecutive id l ->
  consecutive id (update_first p f l).
Proof.
  intros Hf Hl i x (y & Hy & [->|[_ ->]])%update_first_lookup.
  - by apply Hl.
  - rewrite Hf. by apply Hl.
Qed.

Lemma Forall_update_first {A} (P : A -> Prop) p f (l : list A) :
  (forall x, P x -> p x = true -> P (f x)) -> Forall P l ->
  Forall P (update_first p f l).
Proof.
  intros Hf. induction 1 as [|a l Ha Hl IH]; cbn [update_first]; [done|].
  destruct (p a) eqn:Hp; constructor; auto.
Qed.


Lemma find_update_first {A} (p : A -> bool) (f : A -> A) (l : list A) x :
  (forall y, p y = true -> p (f y) = true) ->
  find p l = Some x -> find p (update_first p f l) = Some (f x).
Proof.
  intros Hf. induction l as [|a l IH]; [done|].
  cbn [find update_first]. destruct (p a) eqn:Hp.
  - intros [= <-]. cbn [find]. by rewrite (Hf _ Hp).
  - intros Hx. cbn [find]. rewrite Hp. by apply IH.
Qed.

Lemma find_update_first_none {A} (p : A -> bool) (f : A -> A) (l : list A) :
  find p l = None -> update_first p f l = l.
Proof.
  induction l as [|a l IH]; [done|].
  cbn [find update_first]. destruct (p a); [done|].
  intros H. by rewrite IH.
Qed.

(** Paths: distinct slugs give distinct record files. *)

Lemma append_inj_l (a x y : string) : a ++ x = a ++ y -> x = y.
Proof.
  induction a as [|c a IH]; [done|].
  change (String c a ++ x) with (String c (a ++ x)).
  change (String c a ++ y) with (String c (a ++ y)).
  intros [= H]. auto.
Qed.

Lemma length_append (x y : string) :
  String.length (x ++ y) = (String.length x + String.length y)%nat.
Proof.
  induction x as [|c x IH]; [done|].
  change (String c x ++ y) with (String c (x ++ y)).
  cbn [String.length]. by rewrite IH.
Qed.

Lemma append_inj_r (x y t : string) : x ++ t = y ++ t -> x = y.
Proof.
  revert y. induction x as [|c x IH]; intros [|d y] H.
  - done.
  - apply (f_equal String.length) in H. rewrite !length_append in H.
    cbn [String.length] in H. lia.
  - apply (f_equal String.length) in H. rewrite !length_append in H.
    cbn [String.length] in H. lia.
  - change (String c (x ++ t) = String d (y ++ t)) in H.
    injection H as -> H. f_equal. by apply IH.
Qed.

Lemma meta_file_of_inj s1 s2 : meta_file_of s1 = meta_file_of s2 -> s1 = s2.
Proof.
  unfold meta_file_of, course_dir_of.
  by intros H%append_inj_r%append_inj_l%append_inj_l.
Qed.

(** *** What each handler can leave on the content root *)

Lemma commit_world git message w :
  exists w' o, git_commit_push git message w = (w', o) /\ store w' = store w.
Proof.
  pose proof (keeps_store_commit git message w) as H.
  destruct (git_commit_push git message w) as [w' o]. by exists w', o.
Qed.

Lemma create_course_store git course w :
  let slug := Text.slugify (cc_code course ++ "-" ++ cc_name course) in
  (os_path_exists (store w) (course_dir_of slug) = true
   /\ store (create_course git course w).1 = store w)
  \/ (os_path_exists (store w) (course_dir_of slug) = false
      /\ store (create_course git course w).1 = store_with_course course (store w)).
Proof.
  intros slug. subst slug.
  destruct (os_path_exists (store w)
              (course_dir_of (Text.slugify (cc_code course ++ "-" ++ cc_name course))))
    eqn:Hex.
  - left. split; [done|]. by rewrite (create_course_existing git course w Hex).
  - right. split; [done|].
    by destruct (create_course_fresh git course w Hex) as (w' & Hst & [->|[e ->]]).
Qed.

Lemma create_module_store git course_id module w :
  store (create_module git course_id module w).1 = store w
  \/ exists course_ref,
       find_course course_id (index_json (store w)) = Some course_ref
       /\ let dirs := add_dirs (module_dir_of (r_slug course_ref)
                                  (Text.slugify (mc_title module))) (store w) in
          store (create_module git course_id module w).1 = dirs
          \/ exists meta,
               course_json (store w) !! meta_file_of (r_slug course_ref) = Some meta
               /\ store (create_module git course_id module w).1
                  = put_record (r_slug course_ref)
                      (with_modules (c_modules meta ++ [new_module module meta])%list meta)
                      dirs.
Proof.
  unfold create_module. run.
  destruct (find_course course_id (index_json (store w))) as [course_ref|] eqn:Hc;
    run; [|by left].
  right. exists course_ref. split; [done|].
  destruct (course_json (store w) !! meta_file_of (r_slug course_ref))
    as [meta|] eqn:Hmeta; run; [|by left].
  right. exists meta. split; [done|].
  match goal with
  | |- context [git_commit_push git ?msg ?w0] =>
      destruct (commit_world git msg w0) as (w1 & o & -> & Hst)
  end.
  by destruct o.
Qed.

Lemma create_topic_store git course_id module_id topic w :
  store (create_topic git course_id module_id topic w).1 = store w
  \/ exists course_ref meta module,
       find_course course_id (index_json (store w)) = Some course_ref
       /\ course_json (store w) !! meta_file_of (r_slug course_ref) = Some meta
       /\ find_module module_id (c_modules meta) = Some module
       /\ store (create_topic git course_id module_id topic w).1
          = put_record (r_slug course_ref)
              (meta_with_topic module_id (new_topic topic module) meta)
              (put_file (topic_path (r_slug course_ref) (t_file (new_topic topic module)))
                 (template (tc_title topic)) (store w)).
Proof.
  unfold create_topic. run.
  destruct (find_course course_id (index_json (store w))) as [course_ref|] eqn:Hc;
    run; [|by left].
  destruct (course_json (store w) !! meta_file_of (r_slug course_ref))
    as [meta|] eqn:Hmeta; run; [|by left].
  destruct (find_module module_id (c_modules meta)) as [module|] eqn:Hm; run;
    [|by left].
  destruct (bool_decide _); run; [|by left].
  right. exists course_ref, meta, module. repeat split; try done.
  match goal with
  | |- context [git_commit_push git ?msg ?w0] =>
      destruct (commit_world git msg w0) as (w1 & o & -> & Hst)
  end.
  by destruct o.
Qed.

Lemma update_topic_store git course_id module_id topic_id updates w :
  store (update_topic git course_id module_id topic_id updates w).1 = store w
  \/ exists course_ref meta module topic,
       find_course course_id (index_json (store w)) = Some course_ref
       /\ course_json (store w) !! meta_file_of (r_slug course_ref) = Some meta
       /\ find_module module_id (c_modules meta) = Some module
       /\ find_topic topic_id (m_topics module) = Some topic
       /\ exists st1,
            (st1 = store w
             \/ exists content,
                  st1 = put_file (topic_path (r_slug course_ref) (t_file topic))
                          content (store w))
            /\ (store (update_topic git course_id module_id topic_id updates w).1 = st1
                \/ exists completed,
                     store (update_topic git course_id module_id topic_id updates w).1
                     = put_record (r_slug course_ref)
                         (meta_with_completed module_id topic_id completed meta) st1).
Proof.
  unfold update_topic. run.
  destruct (find_course course_id (index_json (store w))) as [course_ref|] eqn:Hc;
    run; [|by left].
  destruct (course_json (store w) !! meta_file_of (r_slug course_ref))
    as [meta|] eqn:Hmeta; run; [|by left].
  destruct (find_module module_id (c_modules meta)) as [module|] eqn:Hm; run;
    [|by left].
  destruct (find_topic topic_id (m_topics module)) as [topic|] eqn:Ht; run;
    [|by left].
  right. exists course_ref, meta, module, topic. do 4 (split; [done|]).
  destruct (tu_content updates) as [content|]; run.
  - destruct (bool_decide _); run.
    2:{ exists (store w). split; [by left|]. by left. }
    exists (put_file (topic_path (r_slug course_ref) (t_file topic)) content (store w)).
    split; [right; by exists content|].
    match goal with
    | |- context [git_commit_push git ?msg ?w0] =>
        destruct (commit_world git msg w0) as (w1 & o & -> & Hst)
    end.
    destruct o as [ok|e]; run; [|by left].
    destruct (tu_completed updates) as [completed|]; run; [|by left].
    right. exists completed. rewrite Hst.
    match goal with
    | |- context [git_commit_push git ?msg ?w0] =>
        destruct (commit_world git msg w0) as (w2 & o2 & -> & Hst2)
    end.
    by destruct o2.
  - exists (store w). split; [by left|].
    destruct (tu_completed updates) as [completed|]; run; [|by left].
    right. exists completed.
    match goal with
    | |- context [git_commit_push git ?msg ?w0] =>
        destruct (commit_world git msg w0) as (w2 & o2 & -> & Hst2)
    end.
    by destruct o2.
Qed.

(** *** The handlers keep the content root well formed *)

Lemma module_ok_files st st' course_slug module :
  (forall path, is_Some (topic_md st !! path) -> is_Some (topic_md st' !! path)) ->
  module_ok st course_slug module -> module_ok st' course_slug module.
Proof.
  intros Hfiles [Hids Htopics]. split; [done|].
  eapply Forall_impl; [exact Htopics|]. intros topic. apply Hfiles.
Qed.

Lemma meta_ok_files st st' course_ref meta :
  (forall path, is_Some (topic_md st !! path) -> is_Some (topic_md st' !! path)) ->
  meta_ok st course_ref meta -> meta_ok st' course_ref meta.
Proof.
  intros Hfiles (Hid & Hslug & Hids & Hmods). repeat split; try done.
  eapply Forall_impl; [exact Hmods|]. intros module. by apply module_ok_files.
Qed.

(** A change that only adds directories and files, and leaves the record of
    the course alone, keeps the course well formed. *)
Lemma course_ok_grow st st' course_ref :
  directories st ⊆ directories st' ->
  course_json st' !! meta_file_of (r_slug course_ref)
  = course_json st !! meta_file_of (r_slug course_ref) ->
  (forall path, is_Some (topic_md st !! path) -> is_Some (topic_md st' !! path)) ->
  course_ok st course_ref -> course_ok st' course_ref.
Proof.
  intros Hdirs Hrec Hfiles [Hdir (meta & Hmeta & Hok)]. split; [by apply Hdirs|].
  exists meta. rewrite Hrec. split; [done|]. by eapply meta_ok_files.
Qed.

Lemma store_ok_add_dirs path st : store_ok st -> store_ok (add_dirs path st).
Proof.
  intros [Hids Hcourses]. split; [done|].
  eapply Forall_impl; [exact Hcourses|]. intros course_ref.
  apply course_ok_grow; cbn [add_dirs directories course_json topic_md];
    [apply union_subseteq_l | reflexivity | auto].
Qed.

Lemma put_file_keeps path text st other :
  is_Some (topic_md st !! other) -> is_Some (topic_md (put_file path text st) !! other).
Proof.
  intros H. cbn [put_file topic_md]. rewrite lookup_insert_is_Some.
  destruct (decide (path = other)); [by left | by right].
Qed.

Lemma store_ok_put_file path text st : store_ok st -> store_ok (put_file path text st).
Proof.
  intros [Hids Hcourses]. split; [done|].
  eapply Forall_impl; [exact Hcourses|]. intros course_ref.
  apply course_ok_grow; [reflexivity | reflexivity |]. intros other. apply put_file_keeps.
Qed.

(** Replacing the record of an indexed course by one with the same id and
    slug whose modules are well formed. *)
Lemma store_ok_put_record st course_ref meta meta' :
  store_ok st ->
  course_json st !! meta_file_of (r_slug course_ref) = Some meta ->
  c_id meta' = c_id meta ->
  c_slug meta' = c_slug meta ->
  consecutive m_id (c_modules meta') ->
  Forall (module_ok st (r_slug course_ref)) (c_modules meta') ->
  store_ok (put_record (r_slug course_ref) meta' st).
Proof.
  intros [Hids Hcourses] Hmeta Hid Hslug Hmids Hmods. split; [done|].
  eapply Forall_impl; [exact Hcourses|].
  intros other [Hdir (old & Hold & Hok)].
  destruct (decide (r_slug other = r_slug course_ref)) as [Heq|Hne].
  - split; [cbn [put_record directories]; by apply elem_of_union_l|].
    exists meta'. cbn [put_record course_json]. rewrite Heq, lookup_insert_eq.
    split; [done|].
    rewrite Heq, Hmeta in Hold. injection Hold as <-.
    destruct Hok as (Hoid & Hoslug & _ & _).
    unfold meta_ok. rewrite Heq. repeat split; try congruence; done.
  - apply (course_ok_grow st); cbn [put_record directories course_json topic_md].
    + apply union_subseteq_l.
    + apply lookup_insert_ne. by intros ?%meta_file_of_inj.
    + auto.
    + split; [exact Hdir|]. by exists old.
Qed.

Lemma Forall_update_first_found {A} (P : A -> Prop) p f (l : list A) x :
  find p l = Some x -> Forall P l -> P (f x) -> Forall P (update_first p f l).
Proof.
  intros Hfind Hl Hx. revert Hfind.
  induction Hl as [|a l Ha Hl IH]; [done|].
  cbn [find update_first]. destruct (p a).
  - intros [= ->]. by constructor.
  - intros Hfind. constructor; auto.
Qed.

Lemma find_module_In module_id modules module :
  find_module module_id modules = Some module -> module ∈ modules.
Proof. intros [H _]%find_some. by apply list_elem_of_In. Qed.

Lemma store_ok_lookup st course_id course_ref :
  store_ok st -> find_course course_id (index_json st) = Some course_ref ->
  course_ok st course_ref /\ r_id course_ref = course_id.
Proof.
  intros [_ Hcourses] [Hin Hid]%find_some. split; [|lia].
  rewrite Forall_forall in Hcourses. by apply Hcourses, list_elem_of_In.
Qed.

Lemma store_ok_create_course git course w :
  store_ok (store w) -> store_ok (store (create_course git course w).1).
Proof.
  intros Hok.
  destruct (create_course_store git course w) as [[_ ->]|[Hfresh ->]]; [done|].
  destruct Hok as [Hids Hcourses].
  assert (forall other, course_ok (store w) other ->
            r_slug other
            <> Text.slugify (cc_code course ++ "-" ++ cc_name course)) as Hother.
  { intros other [Hdir _] Heq. rewrite Heq in Hdir.
    by rewrite (exists_of_directory _ _ Hdir) in Hfresh. }
  split.
  - cbn [store_with_course index_json new_course c_id c_slug].
    by apply consecutive_snoc.
  - cbn [store_with_course index_json]. apply Forall_app. split.
    + eapply Forall_impl; [exact Hcourses|]. intros other Hcourse.
      apply (course_ok_grow (store w));
        cbn [store_with_course directories course_json topic_md new_course c_slug].
      * etrans; apply union_subseteq_l.
      * apply lookup_insert_ne. intros ?%meta_file_of_inj.
        by eapply Hother.
      * auto.
      * exact Hcourse.
    + apply Forall_singleton. split.
      * cbn [store_with_course directories new_course c_slug r_slug].
        apply elem_of_union_r, elem_of_list_to_set, dir_prefixes_self.
      * exists (new_course course (store w)).
        cbn [store_with_course course_json new_course c_slug r_slug c_id].
        split; [apply lookup_insert_eq|].
        repeat split; [apply consecutive_nil | constructor].
Qed.

Lemma store_ok_create_module git course_id module w :
  store_ok (store w) -> store_ok (store (create_module git course_id module w).1).
Proof.
  intros Hok.
  destruct (create_module_store git course_id module w)
    as [->|(course_ref & Hc & [->|(meta & Hmeta & ->)])];
    [done | by apply store_ok_add_dirs |].
  destruct (store_ok_lookup _ _ _ Hok Hc) as [[_ (old & Hold & Hmok)] _].
  rewrite Hmeta in Hold. injection Hold as <-.
  destruct Hmok as (_ & _ & Hmids & Hmods).
  eapply store_ok_put_record; [by apply store_ok_add_dirs | exact Hmeta | done | done | |].
  - cbn [with_modules c_modules]. by apply consecutive_snoc.
  - cbn [with_modules c_modules]. apply Forall_app. split; [done|].
    apply Forall_singleton. split; [apply consecutive_nil | constructor].
Qed.

Lemma store_ok_create_topic git course_id module_id topic w :
  store_ok (store w) ->
  store_ok (store (create_topic git course_id module_id topic w).1).
Proof.
  intros Hok.
  destruct (create_topic_store git course_id module_id topic w)
    as [->|(course_ref & meta & module & Hc & Hmeta & Hm & ->)]; [done|].
  destruct (store_ok_lookup _ _ _ Hok Hc) as [[_ (old & Hold & Hmok)] _].
  rewrite Hmeta in Hold. injection Hold as <-.
  destruct Hmok as (_ & _ & Hmids & Hmods).
  set (path := topic_path (r_slug course_ref) (t_file (new_topic topic module))).
  eapply store_ok_put_record;
    [by apply store_ok_put_file | exact Hmeta | done | done | |].
  - cbn [meta_with_topic with_modules c_modules].
    by apply consecutive_update_first.
  - cbn [meta_with_topic with_modules c_modules].
    assert (Forall (module_ok (put_file path (template (tc_title topic)) (store w))
                      (r_slug course_ref)) (c_modules meta)) as Hmods'.
    { eapply Forall_impl; [exact Hmods|]. intros m. apply module_ok_files.
      intros other. apply put_file_keeps. }
    eapply Forall_update_first_found; [exact Hm | exact Hmods' |].
    rewrite Forall_forall in Hmods'.
    destruct (Hmods' module) as [Htids Htopics].
    { by eapply find_module_In. }
    split; cbn [with_topics m_topics].
    + by apply consecutive_snoc.
    + apply Forall_app. split; [done|]. apply Forall_singleton.
      unfold topic_ok, path. cbn [put_file topic_md]. rewrite lookup_insert_eq. by eexists.
Qed.

Lemma store_ok_update_topic git course_id module_id topic_id updates w :
  store_ok (store w) ->
  store_ok (store (update_topic git course_id module_id topic_id updates w).1).
Proof.
  intros Hok.
  destruct (update_topic_store git course_id module_id topic_id updates w)
    as [->|(course_ref & meta & module & topic & Hc & Hmeta & Hm & Ht
            & st1 & Hst1 & Hfinal)]; [done|].
  assert (store_ok st1
          /\ course_json st1 !! meta_file_of (r_slug course_ref) = Some meta)
    as [Hok1 Hmeta1].
  { destruct Hst1 as [->|[content ->]]; [done|].
    split; [by apply store_ok_put_file | done]. }
  destruct Hfinal as [->|[completed ->]]; [done|].
  destruct (store_ok_lookup _ _ _ Hok Hc) as [_ Hid].
  assert (find_course course_id (index_json st1) = Some course_ref) as Hc1.
  { by destruct Hst1 as [->|[content ->]]. }
  destruct (store_ok_lookup _ _ _ Hok1 Hc1) as [[_ (old & Hold & Hmok)] _].
  rewrite Hmeta1 in Hold. injection Hold as <-.
  destruct Hmok as (_ & _ & Hmids & Hmods).
  eapply store_ok_put_record; [done | exact Hmeta1 | done | done | |].
  - cbn [meta_with_completed with_modules c_modules].
    by apply consecutive_update_first.
  - cbn [meta_with_completed with_modules c_modules].
    apply Forall_update_first; [|done].
    intros m [Htids Htopics] _. split; cbn [with_topics m_topics].
    + by apply consecutive_update_first.
    + apply Forall_update_first; [|done]. by intros t Htopic _.
Qed.

Lemma store_ok_initial : store_ok (store initial_world).
Proof. split; [apply consecutive_nil | constructor]. Qed.

(** X1.  The content root [init_repo] leaves is well formed, every
    mutating handler keeps a well-formed content root well formed whatever
    the version-control tool does and however the request ends, and so every
    reachable world is well formed: ids count from 1 in the index, in each
    course and in each module, every index entry has its directory and a
    record with its id and slug, every topic has its content file. *)
Theorem store_ok_invariant :
  store_ok (store initial_world)
  /\ (forall git w,
        store_ok (store w) ->
        (forall course, store_ok (store (create_course git course w).1))
        /\ (forall course_id module,
              store_ok (store (create_module git course_id module w).1))
        /\ (forall course_id module_id topic,
              store_ok (store (create_topic git course_id module_id topic w).1))
        /\ (forall course_id module_id topic_id updates,
              store_ok
                (store (update_topic git course_id module_id topic_id updates w).1)))
  /\ (forall w, reachable w -> store_ok (store w)).
Proof.
  split; [apply store_ok_initial|]. split.
  - intros git w Hok. split; [|split; [|split]]; intros.
    + by apply store_ok_create_course.
    + by apply store_ok_create_module.
    + by apply store_ok_create_topic.
    + by apply store_ok_update_topic.
  - induction 1.
    + apply store_ok_initial.
    + by apply store_ok_create_course.
    + by apply store_ok_create_module.
    + by apply store_ok_create_topic.
    + by apply store_ok_update_topic.
Qed.

Lemma reachable_world_with_topic : reachable world_with_topic.
Proof. do 3 constructor. apply reach_init. Qed.

Lemma store_ok_invariant_witness :
  reachable world_with_topic /\ store_ok (store world_with_topic).
Proof.
  split; [exact reachable_world_with_topic|].
  exact (proj2 (proj2 store_ok_invariant) _ reachable_world_with_topic).
Defined.

(** *** Lookups on a well-formed content root *)

Lemma store_ok_record st course_id course_ref :
  store_ok st -> find_course course_id (index_json st) = Some course_ref ->
  exists meta,
    course_json st !! meta_file_of (r_slug course_ref) = Some meta
    /\ meta_ok st course_ref meta.
Proof. intros Hok Hc. by destruct (store_ok_lookup _ _ _ Hok Hc) as [[_ H] _]. Qed.



(** *** Round trips *)


Lemma store_ok_module st course_id course_ref meta module_id module :
  store_ok st ->
  find_course course_id (index_json st) = Some course_ref ->
  course_json st !! meta_file_of (r_slug course_ref) = Some meta ->
  find_module module_id (c_modules meta) = Some module ->
  module_ok st (r_slug course_ref) module.
Proof.
  intros Hok Hc Hmeta Hm.
  destruct (store_ok_record _ _ _ Hok Hc) as (old & Hold & _ & _ & _ & Hmods).
  rewrite Hmeta in Hold. injection Hold as <-.
  rewrite Forall_forall in Hmods. apply Hmods. by eapply find_module_In.
Qed.


Ltac commit_step git w1 o Hst :=
  match goal with
  | |- context [git_commit_push git ?msg ?w0] =>
      destruct (commit_world git msg w0) as (w1 & o & -> & Hst)
  end.

(** X4.  What a successful [update_topic] returns is what [get_topic]
    reads afterwards: the new content when one was given, the new
    completion flag when one was given, in the same record. *)
Theorem update_then_get_topic git (w w' : World) (course_id module_id topic_id : Z)
    (updates : TopicUpdate) (result : TopicMeta * string) :
  update_topic git course_id module_id topic_id updates w = (w', Returned result) ->
  get_topic course_id module_id topic_id w' = (w', Returned result).
Proof.
  unfold update_topic. run.
  destruct (find_course course_id (index_json (store w))) as [course_ref|] eqn:Hc;
    run; [|done].
  destruct (course_json (store w) !! meta_file_of (r_slug course_ref))
    as [meta|] eqn:Hmeta; run; [|done].
  destruct (find_module module_id (c_modules meta)) as [module|] eqn:Hm; run; [|done].
  destruct (find_topic topic_id (m_topics module)) as [topic|] eqn:Ht; run; [|done].
  assert (forall v : World,
            index_json (store v) = index_json (store w) ->
            course_json (store v) !! meta_file_of (r_slug course_ref) = Some meta ->
            get_topic course_id module_id topic_id v
            = (v, Returned (topic,
                    default "" (topic_md (store v)
                                  !! topic_path (r_slug course_ref) (t_file topic)))))
    as Hsame.
  { intros v Hidx Hrec. unfold get_topic. run. rewrite Hidx, Hc. run.
    rewrite Hrec. run. rewrite Hm. run. by rewrite Ht. }
  assert (forall (v : World) completed,
            index_json (store v) = index_json (store w) ->
            course_json (store v) !! meta_file_of (r_slug course_ref)
            = Some (meta_with_completed module_id topic_id completed meta) ->
            get_topic course_id module_id topic_id v
            = (v, Returned (with_completed completed topic,
                    default "" (topic_md (store v)
                                  !! topic_path (r_slug course_ref) (t_file topic)))))
    as Hflag.
  { intros v completed Hidx Hrec. unfold get_topic. run. rewrite Hidx, Hc. run.
    rewrite Hrec. run. cbn [meta_with_completed with_modules c_modules].
    unfold find_module. rewrite (find_update_first _ _ _ module) by done.
    run. cbn [with_topics m_topics].
    unfold find_topic. rewrite (find_update_first _ _ _ topic) by done.
    reflexivity. }
  destruct (tu_content updates) as [content|]; run.
  - destruct (bool_decide _); run; [|done].
    commit_step git w1 o Hst1. destruct o as [ok|e]; run; [|done].
    destruct (tu_completed updates) as [completed|]; run.
    + rewrite Hst1. commit_step git w2 o2 Hst2. destruct o2 as [ok2|e2]; run; [|done].
      intros [= <- <-]. apply Hflag; rewrite Hst2; cbn [index_json course_json];
        [done | apply lookup_insert_eq].
    + intros [= <- <-]. apply Hsame; rewrite Hst1; cbn [index_json course_json]; done.
  - destruct (tu_completed updates) as [completed|]; run.
    + commit_step git w2 o2 Hst2. destruct o2 as [ok2|e2]; run; [|done].
      intros [= <- <-]. apply Hflag; rewrite Hst2; cbn [index_json course_json];
        [done | apply lookup_insert_eq].
    + intros [= <- <-]. by apply Hsame.
Qed.


(** *** The commands of a ledger step *)

Ltac commit_norm :=
  cbv beta iota zeta; cbn [store git_log andb negb];
  rewrite ?length_app; cbn [length];
  rewrite <- ?Nat.add_assoc; cbn [Nat.add].

Ltac commit_leaf cmds :=
  exists cmds; cbn [fst snd git_log last length];
  rewrite <- ?app_assoc; cbn [app];
  repeat split; auto;
  try (let Hin := fresh in
       intros Hin; cbn [In] in Hin;
       repeat (destruct Hin as [Hin|Hin]; try discriminate Hin); done);
  try (eexists; split; [eassumption | lia]);
  try (intros _; eexists; split; [eassumption | lia]);
  try (cbn [In]; tauto);
  try (eexists; split; [reflexivity|];
       match goal with
       | H : ?g ?j ?a = NoSuchFile |- ?g ?i ?a = NoSuchFile =>
           replace i with j by lia; exact H
       end);
  try match goal with
      | H : ?g ?i ?a = Spawned ?p, E : (returncode ?p =? 0) = false |- _ =>
          exists i, a, p; repeat split; [exact H | lia | done]
      end.

Lemma commit_log git (message : string) (w : World) :
  let n := length (git_log w) in
  let add := ["git"; "add"; "."] in
  let commit := ["git"; "commit"; "-m"; message] in
  let remote := ["git"; "remote"] in
  let push := ["git"; "push"] in
  let exits_0 (i : nat) (args : list string) :=
    exists p, git i args = Spawned p /\ returncode p = 0 in
  exists cmds,
    git_log (git_commit_push git message w).1 = (git_log w ++ cmds)%list
    /\ (cmds = [add] \/ cmds = [add; commit] \/ cmds = [add; commit; remote]
        \/ cmds = [add; commit; remote; push])
    /\ (In push cmds ->
        exists p, git (n + 2)%nat remote = Spawned p
                  /\ Text.strip (stdout p) <> EmptyString)
    /\ match (git_commit_push git message w).2 with
       | Returned true =>
           exits_0 n add /\ exits_0 (n + 1)%nat commit
           /\ (In push cmds -> exits_0 (n + 3)%nat push)
           /\ In remote cmds
       | Returned false =>
           exists i args p,
             git i args = Spawned p /\ returncode p <> 0
             /\ last cmds = Some args /\ args <> remote
       | Raised e =>
           e = FileNotFoundError
           /\ exists args, last cmds = Some args
                           /\ git (n + length cmds - 1)%nat args = NoSuchFile
       end.
Proof.
  intros n add commit remote push exits_0.
  cbv beta iota zeta delta [git_commit_push try_except bind subprocess_run ret raise].
  commit_norm. fold n add commit remote push.
  destruct (git n add) as [p1|] eqn:H1; [|by commit_leaf [add]].
  destruct (returncode p1 =? 0) eqn:E1; commit_norm; [|by commit_leaf [add]].
  fold n commit.
  destruct (git (n + 1)%nat commit) as [p2|] eqn:H2; [|by commit_leaf [add; commit]].
  destruct (returncode p2 =? 0) eqn:E2; commit_norm; [|by commit_leaf [add; commit]].
  fold n remote.
  destruct (git (n + 2)%nat remote) as [p3|] eqn:H3;
    [|by commit_leaf [add; commit; remote]].
  commit_norm.
  destruct (Text.strip (stdout p3)) as [|c rest] eqn:Hout; commit_norm;
    [by commit_leaf [add; commit; remote]|].
  assert (exists p, Spawned p3 = Spawned p /\ Text.strip (stdout p) <> EmptyString)
    as Hremote by (exists p3; by rewrite Hout).
  fold n push.
  destruct (git (n + 3)%nat push) as [p4|] eqn:H4;
    [|by commit_leaf [add; commit; remote; push]].
  destruct (returncode p4 =? 0) eqn:E4; commit_norm;
    by commit_leaf [add; commit; remote; push].
Qed.


(** *** Substrings and the alphabet of slugs *)

Lemma prefix_append (s1 s2 : string) :
  String.prefix s1 s2 = true <-> exists post, s2 = s1 ++ post.
Proof.
  revert s2. induction s1 as [|a s1 IH]; intros s2.
  - split; [intros _; by exists s2 | intros _; by destruct s2].
  - destruct s2 as [|b s2].
    + split; [done|]. by intros [post H].
    + cbn [String.prefix]. destruct (ascii_dec a b) as [<-|Hne].
      * rewrite IH. split; intros [post H]; exists post.
        -- by rewrite H.
        -- change (String a s1 ++ post) with (String a (s1 ++ post)) in H.
           by injection H.
      * split; [done|]. intros [post H].
        change (String a s1 ++ post) with (String a (s1 ++ post)) in H.
        injection H as H _. by destruct Hne.
Qed.

(** X7.  [needle in haystack], as modelled by [Text.contains], holds
    exactly when the haystack is some text, then the needle, then some
    text; in particular the empty needle is in every text. *)
Theorem contains_substring (needle haystack : string) :
  (Text.contains needle haystack = true
   <-> exists pre post, haystack = pre ++ needle ++ post)
  /\ Text.contains EmptyString haystack = true.
Proof.
  split.
  - induction haystack as [|c rest IH].
    + cbn [Text.contains]. rewrite orb_false_r, prefix_append. split.
      * intros [post H]. by exists EmptyString, post.
      * intros ([|d pre] & post & H); [by exists post|done].
    + cbn [Text.contains]. rewrite orb_true_iff, prefix_append, IH. split.
      * intros [[post H]|(pre & post & H)].
        -- by exists EmptyString, post.
        -- exists (String c pre), post. by rewrite H.
      * intros ([|d pre] & post & H).
        -- left. by exists post.
        -- right. exists pre, post.
           change (String d pre ++ needle ++ post)
             with (String d (pre ++ needle ++ post)) in H.
           by injection H.
  - by destruct haystack.
Qed.


Lemma canon_all_chars text :
  forall p, Text.canon p text = true ->
  Text.all_chars (fun c => Text.is_word c || Text.is_hyphen c) text = true
  /\ Text.all_chars Text.settled text = true.
Proof.
  induction text as [|c rest IH]; [done|].
  intros p. cbn [Text.canon Text.all_chars].
  destruct (Text.is_hyphen c) eqn:Hh.
  - intros [_ Hr]%andb_true_iff. destruct (IH _ Hr) as [-> ->].
    rewrite orb_true_r. by rewrite (TextFacts.hyphen_eq _ Hh).
  - intros [[-> ->]%andb_true_iff Hr]%andb_true_iff. by destruct (IH _ Hr) as [-> ->].
Qed.

Lemma all_chars_excludes (P : ascii -> bool) (c : ascii) text :
  P c = false -> Text.all_chars P text = true ->
  Text.contains (String c EmptyString) text = false.
Proof.
  intros Hc. induction text as [|d rest IH]; [done|].
  cbn [Text.all_chars Text.contains String.prefix].
  intros [Hd Hr]%andb_true_iff. rewrite (IH Hr), orb_false_r.
  destruct (ascii_dec c d) as [<-|]; [congruence|done].
Qed.

Lemma canon_no_double_hyphen text :
  forall p, Text.canon p text = true -> Text.contains "--" text = false.
Proof.
  induction text as [|c rest IH]; [done|].
  intros p Hc. cbn [Text.contains String.prefix].
  assert (Text.contains "--" rest = false) as ->.
  { revert Hc. cbn [Text.canon]. destruct (Text.is_hyphen c).
    - intros [_ Hr]%andb_true_iff. by eapply IH.
    - intros [_ Hr]%andb_true_iff. by eapply IH. }
  rewrite orb_false_r. destruct (ascii_dec "-" c) as [<-|]; [|done].
  revert Hc. cbn [Text.canon]. change (Text.is_hyphen "-") with true. cbv iota.
  intros [_ Hr]%andb_true_iff. destruct rest as [|d rest]; [done|].
  cbn [String.prefix]. destruct (ascii_dec "-" d) as [<-|]; [|done].
  revert Hr. cbn [Text.canon]. change (Text.is_hyphen "-") with true. cbv iota.
  by cbn [negb andb].
Qed.

(** X8.  Every slug consists of word characters and hyphens only, is in
    lower case, and has no two hyphens in a row; so it contains no slash, no
    dot and no space. *)
Theorem slugify_alphabet (x : string) :
  Text.all_chars (fun c => Text.is_word c || Text.is_hyphen c) (Text.slugify x) = true
  /\ Text.lower (Text.slugify x) = Text.slugify x
  /\ Text.contains "--" (Text.slugify x) = false
  /\ Text.contains "/" (Text.slugify x) = false
  /\ Text.contains "." (Text.slugify x) = false
  /\ Text.contains " " (Text.slugify x) = false.
Proof.
  pose proof (TextFacts.canon_slugify x) as Hcanon.
  destruct (canon_all_chars _ _ Hcanon) as [Halpha _].
  split; [exact Halpha|].
  split; [by eapply TextFacts.canon_lower|].
  split; [by eapply canon_no_double_hyphen|].
  repeat split; by eapply all_chars_excludes; [|exact Halpha].
Qed.

(** *** Course and module hits of [search] *)

Lemma filter_singleton_if {A} (p : A -> bool) (b : bool) (x : A) :
  List.filter p (if b then [x] else []) = if b && p x then [x] else [].
Proof. destruct b; [|done]. cbn [List.filter andb]. by destruct (p x). Qed.

Lemma course_and_module_hits (st : Store) (q : string) :
  List.filter is_course_hit (search_results st q)
  = map (fun '(_, meta) => CourseHit (c_id meta) (c_code meta ++ " - " ++ c_name meta))
      (List.filter (fun '(_, meta) => matches q (c_code meta) || matches q (c_name meta))
         (stored_courses st))
  /\ List.filter is_module_hit (search_results st q)
     = map (fun '(meta, module) =>
              ModuleHit (c_id meta) (m_id module) (c_code meta ++ " > " ++ m_title module))
         (List.filter (fun '(_, module) => matches q (m_title module))
            (stored_modules st)).
Proof.
  rewrite search_results_all_hits. unfold all_hits, stored_modules, stored_courses.
  split.
  - induction (index_json st) as [|course_ref refs IH]; [done|].
    cbn [flat_map]. rewrite !List.filter_app, map_app, IH. f_equal.
    unfold course_hits.
    destruct (course_json st !! meta_file_of (r_slug course_ref)) as [meta|]; [|done].
    rewrite List.filter_app.
    assert (List.filter is_course_hit
              (flat_map (module_hits st q course_ref meta) (c_modules meta)) = [])
      as ->.
    { induction (c_modules meta) as [|module modules IHm]; [done|].
      cbn [flat_map]. rewrite List.filter_app, IHm, app_nil_r.
      unfold module_hits. rewrite List.filter_app.
      rewrite filter_map_comm. cbn [topic_hit is_course_hit].
      assert (forall l : list TopicMeta, List.filter (fun _ => false) l = [])
        as -> by (induction l; auto).
      by destruct (matches q (m_title module)). }
    rewrite app_nil_r. cbn [List.filter].
    by destruct (matches q (c_code meta) || matches q (c_name meta)).
  - induction (index_json st) as [|course_ref refs IH]; [done|].
    cbn [flat_map]. rewrite flat_map_app, !List.filter_app, map_app, IH. f_equal.
    unfold course_hits.
    destruct (course_json st !! meta_file_of (r_slug course_ref)) as [meta|]; [|done].
    cbn [flat_map]. rewrite app_nil_r, List.filter_app.
    assert (List.filter is_module_hit
              (if matches q (c_code meta) || matches q (c_name meta)
               then [CourseHit (c_id meta) (c_code meta ++ " - " ++ c_name meta)]
               else []) = []) as -> by by destruct (_ || _).
    cbn [app].
    induction (c_modules meta) as [|module modules IHm]; [done|].
    cbn [flat_map map List.filter]. rewrite List.filter_app, IHm.
    unfold module_hits at 1. rewrite List.filter_app, filter_map_comm.
    cbn [topic_hit is_module_hit].
    assert (forall l : list TopicMeta, List.filter (fun _ => false) l = [])
      as -> by (induction l; auto).
    cbn [map]. rewrite app_nil_r.
    by destruct (matches q (m_title module)).
Qed.

(** X9.  Among the results [search] collects, the course-type ones are, in
    index order, the courses with a record whose code or name contains the
    query, and the module-type ones are, in traversal order, the modules of
    those courses whose title contains the query, all compared in lower
    case; an index entry without a record contributes nothing. *)
Theorem search_course_and_module_hits (st : Store) (q : string) :
  List.filter is_course_hit (search_results st q)
  = map (fun '(_, meta) => CourseHit (c_id meta) (c_code meta ++ " - " ++ c_name meta))
      (List.filter (fun '(_, meta) => matches q (c_code meta) || matches q (c_name meta))
         (stored_courses st))
  /\ List.filter is_module_hit (search_results st q)
     = map (fun '(meta, module) =>
              ModuleHit (c_id meta) (m_id module) (c_code meta ++ " > " ++ m_title module))
         (List.filter (fun '(_, module) => matches q (m_title module))
            (stored_modules st)).
Proof. apply course_and_module_hits. Qed.

(** *** Progress on courses of bounded size *)

Lemma percent_checked :
  forallb
    (fun total => forallb (fun completed => percent_close completed total)
                    (seq 0 (S total)))
    (seq 1 checked_topics) = true.
Proof. vm_compute. reflexivity. Qed.

Lemma percent_close_checked completed total :
  (completed <= total)%nat -> (1 <= total <= checked_topics)%nat ->
  percent_close completed total = true.
Proof.
  intros Hc Ht. pose proof percent_checked as H.
  rewrite forallb_forall in H. specialize (H total).
  rewrite forallb_forall in H. apply H; apply in_seq; lia.
Qed.

(** X10.  For a course with a record and between 1 and 300 topics,
    [calculate_progress] returns an integer between 0 and 100 that is the
    exact floor of [100 * completed / total] or one less; it is 100 when
    every topic is completed and 0 when none is. *)
Theorem calculate_progress_bounded (course_slug : string) (w : World)
    (meta : CourseMeta) :
  course_json (store w) !! meta_file_of course_slug = Some meta ->
  (1 <= length (all_topics meta) <= checked_topics)%nat ->
  let total := Z.of_nat (length (all_topics meta)) in
  let completed := Z.of_nat (length (List.filter t_completed (all_topics meta))) in
  exists progress,
    calculate_progress course_slug w = (w, Returned progress)
    /\ 0 <= progress <= 100
    /\ completed * 100 / total - 1 <= progress <= completed * 100 / total
    /\ (completed = total -> progress = 100)
    /\ (completed = 0 -> progress = 0).
Proof.
  intros Hmeta Hsize total completed.
  assert (length (List.filter t_completed (all_topics meta))
          <= length (all_topics meta))%nat as Hle by apply List.filter_length_le.
  pose proof (percent_close_checked _ _ Hle Hsize) as Hclose.
  unfold calculate_progress. run. rewrite Hmeta, count_course_counts.
  fold total completed. unfold percent_close in Hclose. fold total completed in Hclose.
  destruct (percent completed total) as [progress|e]; [|done].
  exists progress. split; [done|].
  repeat (apply andb_prop in Hclose as [Hclose ?]).
  repeat split; try lia.
  - intros Heq. assert (length (List.filter t_completed (all_topics meta))
                        = length (all_topics meta)) as Hn by (subst total completed; lia).
    rewrite Hn, Nat.eqb_refl in *. lia.
  - intros Heq. assert (length (List.filter t_completed (all_topics meta)) = 0%nat)
      as Hn by (subst completed; lia).
    rewrite Hn in *. cbn [Nat.eqb] in *. lia.
Qed.

(** *** Creation *)

Lemma courses_loop_app records refs1 refs2 courses :
  courses_loop records (refs1 ++ refs2) courses
  = match courses_loop records refs1 courses with
    | Returned listed => courses_loop records refs2 listed
    | Raised e => Raised e
    end.
Proof.
  revert courses. induction refs1 as [|course_ref refs1 IH]; intros courses; [done|].
  cbn [app courses_loop].
  destruct (records !! meta_file_of (r_slug course_ref)) as [meta|]; [|apply IH].
  destruct (percent _ _); [apply IH | done].
Qed.

Lemma courses_loop_ext records records' refs courses :
  Forall (fun course_ref =>
            records' !! meta_file_of (r_slug course_ref)
            = records !! meta_file_of (r_slug course_ref)) refs ->
  courses_loop records' refs courses = courses_loop records refs courses.
Proof.
  intros Hrefs. revert courses.
  induction Hrefs as [|course_ref refs Href Hrefs IH]; intros courses; [done|].
  cbn [courses_loop]. rewrite Href.
  destruct (records !! meta_file_of (r_slug course_ref)) as [meta|]; [|apply IH].
  destruct (percent _ _); [apply IH | done].
Qed.

Lemma create_course_returned_fresh git course w w' meta :
  create_course git course w = (w', Returned meta) ->
  os_path_exists (store w)
    (course_dir_of (Text.slugify (cc_code course ++ "-" ++ cc_name course))) = false.
Proof.
  intros Hrun. destruct (os_path_exists _ _) eqn:Hex; [|done].
  by rewrite (create_course_existing git course w Hex) in Hrun.
Qed.

(** X11.  On a well-formed content root, after a successful
    [create_course] the listing is the listing of before followed by the
    course just returned, with progress 0. *)
Theorem create_course_is_listed git (w w' : World) (course : CourseCreate)
    (meta : CourseMeta) (courses : list CourseMeta) :
  store_ok (store w) ->
  create_course git course w = (w', Returned meta) ->
  (get_courses w).2 = Returned courses ->
  get_courses w' = (w', Returned (courses ++ [meta])%list)
  /\ c_progress meta = 0.
Proof.
  intros [_ Hcourses] Hrun Hlist.
  pose proof (create_course_returned_fresh _ _ _ _ _ Hrun) as Hfresh.
  apply create_course_returned in Hrun as [-> Hst].
  split; [|done].
  rewrite get_courses_run in Hlist. cbn [snd] in Hlist.
  rewrite get_courses_run, Hst.
  cbn [store_with_course index_json course_json new_course c_id c_slug].
  rewrite courses_loop_app. rewrite (courses_loop_ext (course_json (store w))).
  - rewrite Hlist. cbn [courses_loop r_slug]. rewrite lookup_insert_eq.
    reflexivity.
  - eapply Forall_impl; [exact Hcourses|]. intros other [Hdir _].
    apply lookup_insert_ne. intros Heq%meta_file_of_inj.
    rewrite <- Heq in Hdir. by rewrite (exists_of_directory _ _ Hdir) in Hfresh.
Qed.





(** *** Module directories *)

Lemma module_dirs_ok_grow st st' :
  index_json st' = index_json st ->
  course_json st' = course_json st ->
  directories st ⊆ directories st' ->
  module_dirs_ok st -> module_dirs_ok st'.
Proof.
  intros Hidx Hrec Hdirs Hok. unfold module_dirs_ok. rewrite Hidx, Hrec.
  eapply Forall_impl; [exact Hok|]. intros course_ref Hmods meta Hmeta.
  eapply Forall_impl; [by apply Hmods|]. intros module. apply Hdirs.
Qed.

Lemma module_dirs_ok_put_record st course_ref meta' :
  module_dirs_ok st ->
  Forall (fun module =>
            module_dir_of (r_slug course_ref) (m_slug module) ∈ directories st)
    (c_modules meta') ->
  module_dirs_ok (put_record (r_slug course_ref) meta' st).
Proof.
  intros Hok Hnew. unfold module_dirs_ok. cbn [put_record index_json].
  eapply Forall_impl; [exact Hok|]. intros other Hmods meta.
  cbn [put_record course_json directories].
  destruct (decide (r_slug other = r_slug course_ref)) as [Heq|Hne].
  - rewrite Heq, lookup_insert_eq. intros [= <-].
    eapply Forall_impl; [exact Hnew|]. intros module. apply elem_of_union_l.
  - rewrite lookup_insert_ne by (by intros ?%meta_file_of_inj).
    intros Hmeta. eapply Forall_impl; [by apply Hmods|].
    intros module. apply elem_of_union_l.
Qed.

Lemma module_dirs_ok_lookup st course_id course_ref meta :
  module_dirs_ok st ->
  find_course course_id (index_json st) = Some course_ref ->
  course_json st !! meta_file_of (r_slug course_ref) = Some meta ->
  Forall (fun module =>
            module_dir_of (r_slug course_ref) (m_slug module) ∈ directories st)
    (c_modules meta).
Proof.
  intros Hok [Hin _]%find_some Hmeta. unfold module_dirs_ok in Hok.
  rewrite Forall_forall in Hok. apply list_elem_of_In in Hin.
  by apply (Hok course_ref Hin).
Qed.

Lemma module_dirs_ok_create_course git course w :
  store_ok (store w) -> module_dirs_ok (store w) ->
  module_dirs_ok (store (create_course git course w).1).
Proof.
  intros [_ Hcourses] Hok.
  destruct (create_course_store git course w) as [[_ ->]|[Hfresh ->]]; [done|].
  unfold module_dirs_ok.
  cbn [store_with_course index_json course_json directories new_course c_id c_slug].
  apply Forall_app. split.
  - unfold module_dirs_ok in Hok.
    rewrite Forall_forall in Hcourses. rewrite Forall_forall in Hok.
    apply Forall_forall. intros other Hin meta.
    rewrite lookup_insert_ne.
    + intros Hmeta. eapply Forall_impl; [by apply (Hok other Hin)|].
      intros module Hdir. by apply elem_of_union_l, elem_of_union_l.
    + intros Heq%meta_file_of_inj. destruct (Hcourses other Hin) as [Hdir _].
      rewrite <- Heq in Hdir. by rewrite (exists_of_directory _ _ Hdir) in Hfresh.
  - apply Forall_singleton. intros meta. cbn [r_slug].
    rewrite lookup_insert_eq. intros [= <-]. constructor.
Qed.

Lemma module_dirs_ok_create_module git course_id module w :
  module_dirs_ok (store w) ->
  module_dirs_ok (store (create_module git course_id module w).1).
Proof.
  intros Hok.
  assert (forall path, module_dirs_ok (add_dirs path (store w))) as Hadd.
  { intros path.
    apply (module_dirs_ok_grow (store w)); [done | done | | exact Hok].
    apply union_subseteq_l. }
  destruct (create_module_store git course_id module w)
    as [->|(course_ref & Hc & [->|(meta & Hmeta & ->)])]; [done | apply Hadd |].
  apply module_dirs_ok_put_record; [apply Hadd|].
  cbn [with_modules c_modules]. apply Forall_app. split.
  - eapply Forall_impl; [by eapply module_dirs_ok_lookup|].
    intros m. apply elem_of_union_l.
  - apply Forall_singleton. cbn [new_module m_slug add_dirs directories].
    apply elem_of_union_r, elem_of_list_to_set, dir_prefixes_self.
Qed.

Lemma module_dirs_ok_create_topic git course_id module_id topic w :
  module_dirs_ok (store w) ->
  module_dirs_ok (store (create_topic git course_id module_id topic w).1).
Proof.
  intros Hok.
  destruct (create_topic_store git course_id module_id topic w)
    as [->|(course_ref & meta & module & Hc & Hmeta & Hm & ->)]; [done|].
  apply module_dirs_ok_put_record.
  - by apply (module_dirs_ok_grow (store w)).
  - cbn [meta_with_topic with_modules c_modules put_file directories].
    apply Forall_update_first; [by intros m Hdir _|].
    by eapply module_dirs_ok_lookup.
Qed.

Lemma module_dirs_ok_update_topic git course_id module_id topic_id updates w :
  module_dirs_ok (store w) ->
  module_dirs_ok (store (update_topic git course_id module_id topic_id updates w).1).
Proof.
  intros Hok.
  destruct (update_topic_store git course_id module_id topic_id updates w)
    as [->|(course_ref & meta & module & topic & Hc & Hmeta & Hm & Ht
            & st1 & Hst1 & Hfinal)]; [done|].
  assert (module_dirs_ok st1 /\ directories st1 = directories (store w))
    as [Hok1 Hdirs1].
  { destruct Hst1 as [->|[content ->]]; [done|]. split; [|done].
    by apply (module_dirs_ok_grow (store w)). }
  destruct Hfinal as [->|[completed ->]]; [done|].
  apply module_dirs_ok_put_record; [done|].
  cbn [meta_with_completed with_modules c_modules]. rewrite Hdirs1.
  apply Forall_update_first; [by intros m Hdir _|].
  by eapply module_dirs_ok_lookup.
Qed.

Lemma reachable_ok w : reachable w -> store_ok (store w) /\ module_dirs_ok (store w).
Proof.
  induction 1 as [|git course w _ [Hs Hd]|git course_id module w _ [Hs Hd]
                  |git course_id module_id topic w _ [Hs Hd]
                  |git course_id module_id topic_id updates w _ [Hs Hd]].
  - split; [apply store_ok_initial | constructor].
  - split; [by apply store_ok_create_course | by apply module_dirs_ok_create_course].
  - split; [by apply store_ok_create_module | by apply module_dirs_ok_create_module].
  - split; [by apply store_ok_create_topic | by apply module_dirs_ok_create_topic].
  - split; [by apply store_ok_update_topic | by apply module_dirs_ok_update_topic].
Qed.

(** *** Directories of topic files *)







(** *** Ids and positions *)

Lemma consecutive_tail {A} (id : A -> Z) (a : A) (l : list A) :
  consecutive id (a :: l) -> consecutive (fun x => id x - 1) l.
Proof. intros H i x Hi. rewrite (H (S i) x Hi). lia. Qed.

Lemma find_consecutive {A} (id : A -> Z) (l : list A) (k : Z) :
  consecutive id l ->
  find (fun x => id x =? k) l = if 1 <=? k then l !! Z.to_nat (k - 1) else None.
Proof.
  revert id k. induction l as [|a l IH]; intros id k Hl.
  - cbn [find]. by destruct (1 <=? k).
  - cbn [find]. pose proof (Hl 0%nat a eq_refl) as Ha. cbn in Ha.
    destruct (id a =? k) eqn:Hid.
    + assert (k = 1) as -> by lia. reflexivity.
    + pose proof (IH (fun x => id x - 1) (k - 1) (consecutive_tail _ _ _ Hl)) as Hrec.
      assert (find (fun x => id x =? k) l = find (fun x => id x - 1 =? k - 1) l) as ->.
      { clear. induction l as [|b l IHl]; [done|]. cbn [find].
        replace (id b - 1 =? k - 1) with (id b =? k) by lia. by rewrite IHl. }
      rewrite Hrec. destruct (1 <=? k) eqn:Hk.
      * assert ((1 <=? k - 1) = true) as -> by lia.
        replace (Z.to_nat (k - 1)) with (S (Z.to_nat (k - 1 - 1))) by lia. done.
      * by assert ((1 <=? k - 1) = false) as -> by lia.
Qed.

(** X14.  On a well-formed content root an id is a position: the course,
    module and topic found for ids [c], [m], [t] are entry [c - 1] of the
    index, module [m - 1] of its record and topic [t - 1] of that module,
    and an id below 1 or beyond the count finds nothing. *)
Theorem ids_are_positions (st : Store) (course_id module_id topic_id : Z) :
  store_ok st ->
  find_course course_id (index_json st)
  = (if 1 <=? course_id then index_json st !! Z.to_nat (course_id - 1) else None)
  /\ forall course_ref meta,
       find_course course_id (index_json st) = Some course_ref ->
       course_json st !! meta_file_of (r_slug course_ref) = Some meta ->
       find_module module_id (c_modules meta)
       = (if 1 <=? module_id then c_modules meta !! Z.to_nat (module_id - 1) else None)
       /\ forall module,
            find_module module_id (c_modules meta) = Some module ->
            find_topic topic_id (m_topics module)
            = (if 1 <=? topic_id then m_topics module !! Z.to_nat (topic_id - 1)
               else None).
Proof.
  intros Hok. split; [apply find_consecutive, Hok|].
  intros course_ref meta Hc Hmeta.
  destruct (store_ok_record _ _ _ Hok Hc) as (old & Hold & _ & _ & Hmids & _).
  rewrite Hmeta in Hold. injection Hold as <-.
  split; [by apply find_consecutive|].
  intros module Hm.
  destruct (store_ok_module _ _ _ _ _ _ Hok Hc Hmeta Hm) as [Htids _].
  by apply find_consecutive.
Qed.

(** X15.  On a well-formed content root the body [get_topic] returns is
    the content of the topic's file: the file exists, and the empty string
    that stands for a missing file is never substituted. *)
Theorem get_topic_reads_file (w : World) (course_id module_id topic_id : Z)
    (topic : TopicMeta) (body : string) :
  store_ok (store w) ->
  (get_topic course_id module_id topic_id w).2 = Returned (topic, body) ->
  exists course_ref,
    find_course course_id (index_json (store w)) = Some course_ref
    /\ topic_md (store w) !! topic_path (r_slug course_ref) (t_file topic) = Some body.
Proof.
  intros Hok. unfold get_topic. run.
  destruct (find_course course_id (index_json (store w))) as [course_ref|] eqn:Hc;
    run; [|done].
  destruct (course_json (store w) !! meta_file_of (r_slug course_ref))
    as [meta|] eqn:Hmeta; run; [|done].
  destruct (find_module module_id (c_modules meta)) as [module|] eqn:Hm; run; [|done].
  destruct (find_topic topic_id (m_topics module)) as [stored|] eqn:Ht; run; [|done].
  intros [= <- <-]. exists course_ref. split; [done|].
  destruct (store_ok_module _ _ _ _ _ _ Hok Hc Hmeta Hm) as [_ Htopics].
  rewrite Forall_forall in Htopics.
  destruct (Htopics stored) as [content Hfile].
  { apply find_some in Ht as [Hin _]. by apply list_elem_of_In. }
  by rewrite Hfile.
Qed.

(** *** Reading handlers *)

(** X16.  The reading handlers return the world they were given: no file
    is written and no command is run by [get_courses], [get_course],
    [get_topic] and [search], whatever they return or raise. *)
Theorem reads_leave_world (w : World) :
  (get_courses w).1 = w
  /\ (forall course_id, (get_course course_id w).1 = w)
  /\ (forall course_id module_id topic_id,
        (get_topic course_id module_id topic_id w).1 = w)
  /\ (forall q, (search q w).1 = w).
Proof.
  split; [by rewrite get_courses_run|]. split; [|split].
  - intros course_id. unfold get_course. run.
    destruct (find_course _ _) as [course_ref|]; run; [|done].
    destruct (course_json (store w) !! meta_file_of (r_slug course_ref))
      as [meta|] eqn:Hmeta; run; [|done].
    rewrite Hmeta. destruct (count_course meta) as [total completed]. run.
    by destruct (percent completed total).
  - intros course_id module_id topic_id. unfold get_topic. run.
    destruct (find_course _ _) as [course_ref|]; run; [|done].
    destruct (course_json (store w) !! meta_file_of (r_slug course_ref))
      as [meta|]; run; [|done].
    destruct (find_module _ _) as [module|]; run; [|done].
    by destruct (find_topic _ _).
  - done.
Qed.

(** *** Start-up *)

Lemma dir_prefixes_courses :
  dir_prefixes COURSES_DIR
  = ["."; "./coursemap-content"; "./coursemap-content/courses"].
Proof. vm_compute. reflexivity. Qed.

Lemma dotgit_after_makedirs st :
  os_path_exists (add_dirs COURSES_DIR st) (REPO_PATH ++ "/.git")
  = os_path_exists st (REPO_PATH ++ "/.git").
Proof.
  unfold os_path_exists. cbn [add_dirs directories course_json topic_md].
  f_equal. f_equal. apply bool_decide_ext.
  rewrite elem_of_union, elem_of_list_to_set, dir_prefixes_courses.
  change (REPO_PATH ++ "/.git") with "./coursemap-content/.git".
  split; [|by left]. intros [H|H]; [done|].
  apply list_elem_of_In in H. cbn [In] in H.
  destruct H as [H|[H|[H|[]]]]; discriminate H.
Qed.

(** X17.  [init_repo] creates the courses directory, keeps every record
    and topic file, and keeps the index when there is one (an empty index is
    written otherwise).  When [.git] exists it runs no command; otherwise it
    runs [git init] and the two [git config] commands, whatever their exit
    status, and the only fault it can raise is the [FileNotFoundError] of a
    tool that cannot be started. *)
Theorem init_repo_effects git (index_exists : bool) (w : World) :
  let result := init_repo git index_exists w in
  let has_git := os_path_exists (store w) (REPO_PATH ++ "/.git") in
  store result.1
  = add_dirs COURSES_DIR
      {| index_json := if index_exists then index_json (store w) else [];
         directories := directories (store w);
         course_json := course_json (store w);
         topic_md := topic_md (store w) |}
  /\ COURSES_DIR ∈ directories (store result.1)
  /\ (has_git = true -> result = (result.1, Returned tt) /\ git_log result.1 = git_log w)
  /\ (has_git = false -> spawns git ->
      result.2 = Returned tt
      /\ git_log result.1
         = (git_log w
            ++ [["git"; "init"];
                ["git"; "config"; "user.name"; "CourseMap"];
                ["git"; "config"; "user.email"; "coursemap@local"]])%list)
  /\ (forall e, result.2 = Raised e -> e = FileNotFoundError /\ has_git = false).
Proof.
  intros result has_git. subst result.
  unfold init_repo. run.
  assert (forall idx,
            os_path_exists
              {| index_json := idx;
                 directories := directories (store w) ∪ list_to_set (dir_prefixes COURSES_DIR);
                 course_json := course_json (store w);
                 topic_md := topic_md (store w) |} (REPO_PATH ++ "/.git")
            = has_git) as Hgit.
  { intros idx. subst has_git. rewrite <- (dotgit_after_makedirs (store w)).
    reflexivity. }
  assert (COURSES_DIR ∈ directories (store w) ∪ list_to_set (dir_prefixes COURSES_DIR))
    as Hdir by apply elem_of_union_r, elem_of_list_to_set, dir_prefixes_self.
  destruct index_exists; run; rewrite Hgit; destruct has_git eqn:Hhas; run.
  1,3: by repeat split.
  all: unfold subprocess_run; cbn [store git_log andb].
  all: destruct (git (length (git_log w)) ["git"; "init"]) as [p1|] eqn:H1;
    cbv beta iota; cbn [fst snd store git_log directories];
    rewrite ?length_app; cbn [length];
    [|split; [done|]; split; [exact Hdir|]; split; [done|];
      split; [intros _ Hsp; by apply Hsp in H1 | by intros e [= <-]]].
  all: destruct (git (length (git_log w) + 1)%nat
                   ["git"; "config"; "user.name"; "CourseMap"]) as [p2|] eqn:H2;
    cbv beta iota; cbn [fst snd store git_log directories];
    rewrite ?length_app; cbn [length];
    [|split; [done|]; split; [exact Hdir|]; split; [done|];
      split; [intros _ Hsp; by apply Hsp in H2 | by intros e [= <-]]].
  all: destruct (git (length (git_log w) + 1 + 1)%nat
                   ["git"; "config"; "user.email"; "coursemap@local"])
         as [p3|] eqn:H3;
    cbv beta iota; cbn [fst snd store git_log directories];
    [|split; [done|]; split; [exact Hdir|]; split; [done|];
      split; [intros _ Hsp; by apply Hsp in H3 | by intros e [= <-]]].
  all: split; [done|]; split; [exact Hdir|]; split; [done|];
    split; [|done]; intros _ _; split; [done|]; by rewrite <- !app_assoc.
Qed.

(** *** The empty query *)

Lemma matches_empty text : matches EmptyString text = true.
Proof. unfold matches. cbn [Text.lower]. by destruct (Text.lower text). Qed.

Lemma filter_all {A} (p : A -> bool) (l : list A) :
  (forall x, p x = true) -> List.filter p l = l.
Proof. intros Hp. induction l as [|x l IH]; [done|]. cbn. by rewrite Hp, IH. Qed.

Lemma topic_hits st q :
  List.filter is_topic_hit (search_results st q)
  = map (fun '(_, meta, module, topic) => topic_hit meta module topic)
      (List.filter
         (fun '(course_ref, _, _, topic) => topic_matches st q course_ref topic)
         (stored_topics st)).
Proof.
  rewrite search_results_all_hits. unfold all_hits, stored_topics.
  rewrite filter_flat_map.
  induction (index_json st) as [|course_ref refs IH]; [done|].
  cbn [flat_map]. rewrite List.filter_app, map_app, <- IH.
  by rewrite topic_hits_of_course.
Qed.

(** X18.  The empty query matches everything: [search("")] collects every
    indexed course that has a record, every module of those courses, and
    every topic of those modules whose content file exists, before it keeps
    the first twenty of them. *)
Theorem search_empty_query (st : Store) :
  List.filter is_course_hit (search_results st EmptyString)
  = map (fun '(_, meta) => CourseHit (c_id meta) (c_code meta ++ " - " ++ c_name meta))
      (stored_courses st)
  /\ List.filter is_module_hit (search_results st EmptyString)
     = map (fun '(meta, module) =>
              ModuleHit (c_id meta) (m_id module) (c_code meta ++ " > " ++ m_title module))
         (stored_modules st)
  /\ List.filter is_topic_hit (search_results st EmptyString)
     = map (fun '(_, meta, module, topic) => topic_hit meta module topic)
         (List.filter
            (fun '(course_ref, _, _, topic) => has_file st (r_slug course_ref) topic)
            (stored_topics st)).
Proof.
  destruct (course_and_module_hits st EmptyString) as [-> ->].
  rewrite topic_hits. repeat split.
  - f_equal. apply filter_all. intros [course_ref meta]. by rewrite matches_empty.
  - f_equal. apply filter_all. intros [meta module]. by rewrite matches_empty.
  - f_equal. apply List.filter_ext. intros [[[course_ref meta] module] topic].
    unfold topic_matches, has_file. rewrite matches_empty. cbn [andb].
    destruct (topic_md st !! _); [by rewrite matches_empty | done].
Qed.

(** *** Round trip of [create_module] *)

(** X19.  After a successful [create_module], the course [get_course]
    returns has the modules of before followed by the module just
    returned. *)
Theorem create_module_then_get_course git (w w' : World) (course_id : Z)
    (module : ModuleCreate) (created : ModuleMeta) (course : CourseMeta) :
  create_module git course_id module w = (w', Returned created) ->
  (get_course course_id w').2 = Returned course ->
  exists course_ref meta,
    find_course course_id (index_json (store w)) = Some course_ref
    /\ course_json (store w) !! meta_file_of (r_slug course_ref) = Some meta
    /\ c_modules course = (c_modules meta ++ [created])%list
    /\ m_topics created = []
    /\ c_code course = c_code meta /\ c_name course = c_name meta
    /\ c_id course = c_id meta.
Proof.
  intros (course_ref & meta & Hc & Hmeta & -> & Hrec & Hidx & _)%create_module_returned.
  unfold get_course. run. rewrite Hidx, Hc. run. rewrite Hrec, lookup_insert_eq. run.
  rewrite Hrec, lookup_insert_eq.
  destruct (count_course _) as [total completed]. run.
  destruct (percent completed total) as [progress|e]; [|done].
  intros [= <-]. by exists course_ref, meta.
Qed.

(** *** One ledger step per mutation *)

Lemma commit_step_log git message w :
  exists cmds,
    git_log (git_commit_push git message w).1 = (git_log w ++ cmds)%list
    /\ ledger_step message cmds.
Proof.
  destruct (commit_log git message w) as (cmds & Hlog & Hshape & _).
  by exists cmds.
Qed.

Ltac ledger_step_at git cmds Hlog Hstep w1 o :=
  match goal with
  | |- context [git_commit_push git ?msg ?w0] =>
      destruct (commit_step_log git msg w0) as (cmds & Hlog & Hstep);
      destruct (git_commit_push git msg w0) as [w1 o]
  end.

(** X20.  Every mutating handler runs at most one ledger step per
    mutation, with a message that names it: "Create course: <code> -
    <name>", "Add module: <title>", "Add topic: <title>", and for
    [update_topic] "Update topic: <title>" for the content followed by
    "Mark complete: <title>" or "Mark incomplete: <title>" for the flag.  The
    commands already in the log are kept. *)
Theorem mutations_commit_once git (w : World) :
  (forall course,
     exists cmds,
       git_log (create_course git course w).1 = (git_log w ++ cmds)%list
       /\ (cmds = []
           \/ ledger_step
                ("Create course: " ++ cc_code course ++ " - " ++ cc_name course) cmds))
  /\ (forall course_id module,
        exists cmds,
          git_log (create_module git course_id module w).1 = (git_log w ++ cmds)%list
          /\ (cmds = [] \/ ledger_step ("Add module: " ++ mc_title module) cmds))
  /\ (forall course_id module_id topic,
        exists cmds,
          git_log (create_topic git course_id module_id topic w).1
          = (git_log w ++ cmds)%list
          /\ (cmds = [] \/ ledger_step ("Add topic: " ++ tc_title topic) cmds))
  /\ (forall course_id module_id topic_id updates,
        exists title for_content for_flag,
          git_log (update_topic git course_id module_id topic_id updates w).1
          = (git_log w ++ for_content ++ for_flag)%list
          /\ (for_content = []
              \/ (tu_content updates <> None
                  /\ ledger_step ("Update topic: " ++ title) for_content))
          /\ (for_flag = []
              \/ exists completed,
                   tu_completed updates = Some completed
                   /\ ledger_step
                        ("Mark " ++ (if completed then "complete" else "incomplete")
                         ++ ": " ++ title) for_flag)).
Proof.
  split; [|split; [|split]].
  - intros course. unfold create_course. run.
    destruct (os_path_exists _ _); run.
    { exists []. rewrite app_nil_r. split; [done | by left]. }
    ledger_step_at git cmds Hlog Hstep w1 o. cbn [fst git_log] in Hlog.
    exists cmds. split; [by destruct o | by right].
  - intros course_id module. unfold create_module. run.
    destruct (find_course _ _) as [course_ref|]; run;
      [|exists []; rewrite app_nil_r; split; [done | by left]].
    destruct (course_json (store w) !! _) as [meta|]; run;
      [|exists []; rewrite app_nil_r; split; [done | by left]].
    ledger_step_at git cmds Hlog Hstep w1 o. cbn [fst git_log] in Hlog.
    exists cmds. split; [by destruct o | by right].
  - intros course_id module_id topic. unfold create_topic. run.
    destruct (find_course _ _) as [course_ref|]; run;
      [|exists []; rewrite app_nil_r; split; [done | by left]].
    destruct (course_json (store w) !! _) as [meta|]; run;
      [|exists []; rewrite app_nil_r; split; [done | by left]].
    destruct (find_module _ _) as [module|]; run;
      [|exists []; rewrite app_nil_r; split; [done | by left]].
    destruct (bool_decide _); run;
      [|exists []; rewrite app_nil_r; split; [done | by left]].
    ledger_step_at git cmds Hlog Hstep w1 o. cbn [fst git_log] in Hlog.
    exists cmds. split; [by destruct o | by right].
  - intros course_id module_id topic_id updates. unfold update_topic. run.
    destruct (find_course _ _) as [course_ref|]; run;
      [|exists EmptyString, [], []; rewrite app_nil_r; repeat split; by left].
    destruct (course_json (store w) !! _) as [meta|]; run;
      [|exists EmptyString, [], []; rewrite app_nil_r; repeat split; by left].
    destruct (find_module _ _) as [module|]; run;
      [|exists EmptyString, [], []; rewrite app_nil_r; repeat split; by left].
    destruct (find_topic _ _) as [topic|]; run;
      [|exists EmptyString, [], []; rewrite app_nil_r; repeat split; by left].
    exists (t_title topic).
    destruct (tu_content updates) as [content|]; run.
    + destruct (bool_decide _); run;
        [|exists [], []; rewrite app_nil_r; repeat split; by left].
      ledger_step_at git c1 Hlog1 Hstep1 w1 o1. cbn [fst git_log] in Hlog1.
      destruct o1 as [ok|e]; run;
        [|exists c1, []; rewrite app_nil_r; repeat split; [done | by right | by left]].
      destruct (tu_completed updates) as [completed|]; run;
        [|exists c1, []; rewrite app_nil_r; repeat split; [done | by right | by left]].
      ledger_step_at git c2 Hlog2 Hstep2 w2 o2. cbn [fst git_log] in Hlog2.
      exists c1, c2. rewrite Hlog1, <- app_assoc in Hlog2.
      split; [by destruct o2|]. split; [by right|]. right. by exists completed.
    + destruct (tu_completed updates) as [completed|]; run;
        [|exists [], []; rewrite app_nil_r; repeat split; by left].
      ledger_step_at git c2 Hlog2 Hstep2 w2 o2. cbn [fst git_log] in Hlog2.
      exists [], c2. cbn [app].
      split; [by destruct o2|]. split; [by left|]. right. by exists completed.
Qed.

(** ** The further properties on the scenarios *)


Example update_topic_revise :
  update_topic always_ok 1 1 1 revise world_with_topic
  = (world_after_update, Returned (with_completed true topic1, "Sorting and searching")).
Proof. vm_compute. reflexivity. Qed.

Example get_course_after_module :
  (get_course 1 world_with_module).2
  = Returned (with_modules [module1] course1).
Proof. vm_compute. reflexivity. Qed.



Lemma update_then_get_topic_witness :
  get_topic 1 1 1 world_after_update
  = (world_after_update, Returned (with_completed true topic1, "Sorting and searching")).
Proof.
  exact (update_then_get_topic always_ok world_with_topic world_after_update 1 1 1
           revise _ update_topic_revise).
Defined.


Lemma calculate_progress_bounded_witness :
  course_json (store (world_of_50 29)) !! meta_file_of "cs101-algorithms"
  = Some (course_of_50 29)
  /\ (1 <= length (all_topics (course_of_50 29)) <= checked_topics)%nat
  /\ exists progress,
       calculate_progress "cs101-algorithms" (world_of_50 29)
       = (world_of_50 29, Returned progress)
       /\ 0 <= progress <= 100
       /\ 29 * 100 / 50 - 1 <= progress <= 29 * 100 / 50.
Proof.
  assert (course_json (store (world_of_50 29)) !! meta_file_of "cs101-algorithms"
          = Some (course_of_50 29)) as Hmeta by (vm_compute; reflexivity).
  assert (1 <= length (all_topics (course_of_50 29)) <= checked_topics)%nat as Hsize
    by (split; apply Nat.leb_le; vm_compute; reflexivity).
  split; [exact Hmeta|]. split; [exact Hsize|].
  destruct (calculate_progress_bounded "cs101-algorithms" (world_of_50 29)
              (course_of_50 29) Hmeta Hsize)
    as (progress & Hrun & Hrange & Hclose & _).
  exists progress. split; [exact Hrun|]. split; [exact Hrange|]. exact Hclose.
Defined.

Lemma create_course_is_listed_witness :
  store_ok (store initial_world)
  /\ (get_courses initial_world).2 = Returned []
  /\ get_courses world_with_course = (world_with_course, Returned [course1]).
Proof.
  assert (store_ok (store initial_world)) as Hok by exact store_ok_initial.
  assert ((get_courses initial_world).2 = Returned []) as Hlist by reflexivity.
  split; [exact Hok|]. split; [exact Hlist|].
  exact (proj1 (create_course_is_listed always_ok initial_world world_with_course
                  cs101 course1 [] Hok create_course_cs101 Hlist)).
Defined.



Lemma ids_are_positions_witness :
  store_ok (store world_with_topic)
  /\ find_course 1 (index_json (store world_with_topic))
     = index_json (store world_with_topic) !! 0%nat
  /\ find_course 2 (index_json (store world_with_topic)) = None.
Proof.
  assert (store_ok (store world_with_topic)) as Hok
    by exact (proj1 (reachable_ok _ reachable_world_with_topic)).
  split; [exact Hok|]. split.
  - exact (proj1 (ids_are_positions (store world_with_topic) 1 1 1 Hok)).
  - exact (proj1 (ids_are_positions (store world_with_topic) 2 1 1 Hok)).
Defined.

Lemma get_topic_reads_file_witness :
  store_ok (store world_with_topic)
  /\ exists course_ref,
       find_course 1 (index_json (store world_with_topic)) = Some course_ref
       /\ topic_md (store world_with_topic) !! topic_path (r_slug course_ref) (t_file topic1)
          = Some (template "Algo Basics").
Proof.
  assert (store_ok (store world_with_topic)) as Hok
    by exact (proj1 (reachable_ok _ reachable_world_with_topic)).
  split; [exact Hok|].
  refine (get_topic_reads_file world_with_topic 1 1 1 topic1 (template "Algo Basics")
            Hok _).
  vm_compute. reflexivity.
Defined.

Lemma create_module_then_get_course_witness :
  exists course_ref meta,
    find_course 1 (index_json (store world_with_course)) = Some course_ref
    /\ course_json (store world_with_course) !! meta_file_of (r_slug course_ref)
       = Some meta
    /\ c_modules (with_modules [module1] course1) = (c_modules meta ++ [module1])%list
    /\ m_topics module1 = []
    /\ c_code (with_modules [module1] course1) = c_code meta
    /\ c_name (with_modules [module1] course1) = c_name meta
    /\ c_id (with_modules [module1] course1) = c_id meta.
Proof.
  exact (create_module_then_get_course always_ok world_with_course world_with_module
           1 basics module1 _ create_module_basics get_course_after_module).
Defined.


(** ** Start-up and the invariant *)


